(** * FuncAppSA: the query-answering relay of [function_app.py]

    A shallow embedding of the HTTP handler [handle_query_handler] and of
    its helper [extract_titles], with the two outbound services (the chat
    completion client and the search client) as parameters, and the
    properties of the specification stated over it. *)

From Stdlib Require Import SpecFloat.
From stdpp Require Import gmap strings list.

Set Warnings "-register-all".
Set Default Proof Using "Type".

(** ** Python values *)

(** What [req.get_json()] can return: the image of [json.loads]. *)
Inductive json :=
  | JNull
  | JBool (b : bool)
  | JInt (n : Z)
  | JFloat (f : spec_float)
  | JStr (s : string)
  | JArr (l : list json)
  | JObj (m : gmap string json).

(** Python's truth value of an object ([if not query], [if titles]). *)
Definition truthy (v : json) : bool :=
  match v with
  | JNull => false
  | JBool b => b
  | JInt n => negb (n =? 0)%Z
  | JFloat (S754_zero _) => false
  | JFloat _ => true
  | JStr "" => false
  | JStr _ => true
  | JArr [] => false
  | JArr _ => true
  | JObj m => negb (bool_decide (m = ∅))
  end.

Definition str_truthy (s : string) : bool :=
  match s with "" => false | _ => true end.

Definition list_truthy {A} (l : list A) : bool :=
  match l with [] => false | _ => true end.

(** [type(v).__name__], as it appears in the text of an [AttributeError]. *)
Definition type_name (v : json) : string :=
  match v with
  | JNull => "NoneType"
  | JBool _ => "bool"
  | JInt _ => "int"
  | JFloat _ => "float"
  | JStr _ => "str"
  | JArr _ => "list"
  | JObj _ => "dict"
  end.

(** ** Strings: [str.split] and [str.join]

    A [string] is read as the sequence of the UTF-8 bytes of the Python
    text; the separators of the program are ASCII, so splitting and
    joining bytes and splitting and joining code points agree. *)

Definition nl : string := String (Ascii.ascii_of_nat 10) "".

(** [s.split(sep)] for a non-empty [sep] (the program only passes the
    literal [", "]): scan from the left; at an occurrence of [sep] close
    the current piece and step over the [sep]. [skip] counts the bytes of
    a separator that are still to be stepped over. *)
Fixpoint split_go (sep : string) (skip : nat) (cur s : string) : list string :=
  match s with
  | "" => [cur]
  | String c s' =>
    match skip with
    | S k => split_go sep k cur s'
    | O =>
      if String.prefix sep s
      then cur :: split_go sep (String.length sep - 1) "" s'
      else split_go sep 0 (cur +:+ String c "") s'
    end
  end.

Definition str_split (s sep : string) : list string := split_go sep 0 "" s.

(** [sep.join(l)]. *)
Fixpoint str_join (sep : string) (l : list string) : string :=
  match l with
  | [] => ""
  | [x] => x
  | x :: rest => x +:+ sep +:+ str_join sep rest
  end.

(** ** Exceptions, outcomes and the process state *)

(** An instance of [Exception]: its class and [str(e)]. *)
Record exn := Exn { exn_class : string; exn_str : string }.

Inductive result (A : Type) :=
  | Ok (a : A)
  | Raise (e : exn).
Arguments Ok {A} a.
Arguments Raise {A} e.

(** One entry of the [messages] list of a chat completion request. *)
Record chat_message := ChatMessage { role : string; msg_content : string }.

(** [response.choices[i].message]: a mapping in which ["content"] may be
    absent. *)
Record message := Message { content : option string }.

Record chat_completion := ChatCompletion { choices : list message }.

(** A record of the search index, restricted to the selected fields. *)
Record document := Document { title : string; doc_content : string }.

(** The asynchronous iterator returned by [search_client.search]: it
    yields records, and then either ends or raises. *)
Inductive result_stream :=
  | StreamEnd
  | StreamItem (d : document) (rest : result_stream)
  | StreamRaise (e : exn).

Fixpoint stream_of_list (docs : list document) : result_stream :=
  match docs with
  | [] => StreamEnd
  | d :: rest => StreamItem d (stream_of_list rest)
  end.

(** What the process does that is visible from outside the handler. *)
Inductive event :=
  | LogInfo (msg : string)
  | LogError (msg : string)
  | ChatCall (model : string) (messages : list chat_message)
  | SearchCall (filter : string) (select : list string).

(** The module-level state of the function app: the deployment name read
    from the environment at import, and the journal of calls and log
    lines written so far. *)
Record process := Process {
  azure_openai_chat_deployment : string;
  journal : list event
}.

(** The process after it has written [evs] to its journal. *)
Definition extend (p : process) (evs : list event) : process :=
  {| azure_openai_chat_deployment := azure_openai_chat_deployment p;
     journal := journal p ++ evs |}.

Definition record (ev : event) (p : process) : process := extend p [ev].

(** Computations that read and extend the process state and may raise. *)
Definition M (A : Type) : Type := process → result A * process.

Definition ret {A} (a : A) : M A := fun p => (Ok a, p).

Definition raise {A} (e : exn) : M A := fun p => (Raise e, p).

Definition bind {A B} (m : M A) (k : A → M B) : M B :=
  fun p =>
    match m p with
    | (Ok a, p') => k a p'
    | (Raise e, p') => (Raise e, p')
    end.

(** [try: m except Exception as e: h e]. *)
Definition try_except {A} (m : M A) (h : exn → M A) : M A :=
  fun p =>
    match m p with
    | (Ok a, p') => (Ok a, p')
    | (Raise e, p') => h e p'
    end.

Definition lift {A} (r : result A) : M A := fun p => (r, p).

Definition emit (ev : event) : M unit := fun p => (Ok tt, record ev p).

Notation "x <- m ;; k" := (bind m (fun x => k))
  (at level 100, m at next level, right associativity).
Notation "m ;;; k" := (bind m (fun _ => k))
  (at level 100, right associativity).

(** ** The HTTP objects *)

(** A request is known to the handler through [req.get_json()] only,
    which returns the parsed body or raises [ValueError]. *)
Record HttpRequest := { get_json : result json }.

(** [func.HttpResponse(body, status_code=..., mimetype=...)]; the
    constructor's own default for [mimetype] is ["text/plain"]. *)
Record HttpResponse := {
  body : string;
  status_code : Z;
  mimetype : string
}.

(** The dictionary [response_data] of the handler. *)
Record response_data := {
  openai_answer : string;
  retrieved_content : string
}.

(** [body.get(key, dflt)]: only a [dict] has the method. *)
Definition py_get (v : json) (key : string) (dflt : json) : result json :=
  match v with
  | JObj m => Ok (default dflt (m !! key))
  | _ => Raise (Exn "AttributeError"
                    ("'" +:+ type_name v +:+ "' object has no attribute 'get'"))
  end.

(** [response.choices[0]]. *)
Definition first_choice (r : chat_completion) : result message :=
  match choices r with
  | m :: _ => Ok m
  | [] => Raise (Exn "IndexError" "list index out of range")
  end.

(** [message.get("content", dflt)]. *)
Definition message_get_content (m : message) (dflt : string) : string :=
  default dflt (content m).

(** ** The fixed instructions of the two requests *)

Definition titles_system_prompt : string :=
  "Extract titles from the query. List of titles extracted from the query. Complete file names are considered titles. If there are no titles in the query, provide an empty list. For example, in the query 'Find the report on sales and the summary of the meeting using 'myreport.pdf', the titles would be ['myreport.pdf']. If no titles are found, return an empty list.".

Definition answer_system_prompt : string :=
  "You are a helpful assistant that answers queries. You do not have access to the internet, but you can use documents in the chat history to answer the question. If the documents do not contain the answer, say 'I don't know'. You must cite your answer with the titles of the documents used. If you are unsure, say 'I don't know'.".

(** The filter in the words of the specification: the clauses
    [title eq 'T'] of the titles, in their order, with [ or ] between
    two of them. *)
Fixpoint filter_expression (titles : list string) : string :=
  match titles with
  | [] => ""
  | [t] => "title eq '" +:+ t +:+ "'"
  | t :: rest => "title eq '" +:+ t +:+ "' or " +:+ filter_expression rest
  end.

(** The content block in the words of the specification: the blocks
    [Title: {title}], line feed, [Content: {content}] of the records, in
    their order, with one line feed between two of them. *)
Fixpoint content_block (docs : list document) : string :=
  match docs with
  | [] => ""
  | [d] => "Title: " +:+ title d +:+ nl +:+ "Content: " +:+ doc_content d
  | d :: rest =>
    "Title: " +:+ title d +:+ nl +:+ "Content: " +:+ doc_content d
    +:+ nl +:+ content_block rest
  end.

(** A computation that leaves the configuration of the process as it
    found it and whose outcome depends on nothing else of the process. *)
Definition stateless {A} (m : M A) : Prop :=
  ∀ p,
    azure_openai_chat_deployment (m p).2 = azure_openai_chat_deployment p
    ∧ ∀ q, azure_openai_chat_deployment q = azure_openai_chat_deployment p →
           (m q).1 = (m p).1.


(** ** Further notions used by the properties *)

(** The text [sep] occurs somewhere in [s]. *)
Definition occurs (sep s : string) : Prop := ∃ a b, s = a +:+ sep +:+ b.

(** [sep in s], by trying every position of [s]. *)
Fixpoint str_contains (sep s : string) : bool :=
  match s with
  | "" => String.prefix sep ""
  | String _ s' => String.prefix sep s || str_contains sep s'
  end.

(** The entries of a journal that are outbound calls. *)
Definition is_call (ev : event) : bool :=
  match ev with
  | ChatCall _ _ | SearchCall _ _ => true
  | LogInfo _ | LogError _ => false
  end.

(** A result stream that yields [docs] and then raises [e]. *)
Fixpoint stream_failing (docs : list document) (e : exn) : result_stream :=
  match docs with
  | [] => StreamRaise e
  | d :: rest => StreamItem d (stream_failing rest e)
  end.

(** ** The module-level statements, lines 15 to 27

    What runs when the module is imported: seven reads of [os.environ]
    and two [print]s. The standard output is the state; a missing
    variable raises [KeyError]. *)
Module Startup.

Record settings := {
  search_endpoint : string;
  search_admin_key : string;
  index_name : string;
  azure_openai_endpoint : string;
  azure_openai_key : string;
  azure_openai_api_version : string;
  azure_openai_chat_deployment : string
}.

(** Computations that write lines to the standard output and may raise. *)
Definition boot (A : Type) : Type := list string → result A * list string.

Definition done {A} (a : A) : boot A := fun out => (Ok a, out).

Definition and_then {A B} (m : boot A) (k : A → boot B) : boot B :=
  fun out =>
    match m out with
    | (Ok a, out') => k a out'
    | (Raise e, out') => (Raise e, out')
    end.

Notation "x <~ m ;; k" := (and_then m (fun x => k))
  (at level 100, m at next level, right associativity).

(** [os.environ[key]]; [str] of the [KeyError] is the [repr] of the key. *)
Definition os_environ (environ : gmap string string) (key : string)
  : boot string :=
  fun out =>
    match environ !! key with
    | Some v => (Ok v, out)
    | None => (Raise (Exn "KeyError" ("'" +:+ key +:+ "'")), out)
    end.

Definition print (line : string) : boot unit :=
  fun out => (Ok tt, out ++ [line]).

(** Lines 15 to 27, in their order. *)
Definition module_init (environ : gmap string string) : boot settings :=
  search_endpoint <~ os_environ environ "AZURE_SEARCH_SERVICE_ENDPOINT" ;;
  _ <~ print ("AZURE_SEARCH_ADMIN_KEY: " +:+ search_endpoint) ;;
  search_admin_key <~ os_environ environ "AZURE_SEARCH_ADMIN_KEY" ;;
  _ <~ print ("AZURE_SEARCH_ADMIN_KEY: " +:+ search_admin_key) ;;
  index_name <~ os_environ environ "AZURE_SEARCH_INDEX_NAME" ;;
  azure_openai_endpoint <~ os_environ environ "AZURE_OPENAI_ENDPOINT" ;;
  azure_openai_key <~ os_environ environ "AZURE_OPENAI_KEY" ;;
  azure_openai_api_version <~ os_environ environ "AZURE_OPENAI_API_VERSION" ;;
  azure_openai_chat_deployment <~
    os_environ environ "AZURE_OPENAI_CHAT_DEPLOYMENT" ;;
  done {| search_endpoint := search_endpoint;
          search_admin_key := search_admin_key;
          index_name := index_name;
          azure_openai_endpoint := azure_openai_endpoint;
          azure_openai_key := azure_openai_key;
          azure_openai_api_version := azure_openai_api_version;
          azure_openai_chat_deployment := azure_openai_chat_deployment |}.

(** The variables read, in the order of the reads. *)
Definition required : list string :=
  [ "AZURE_SEARCH_SERVICE_ENDPOINT"; "AZURE_SEARCH_ADMIN_KEY";
    "AZURE_SEARCH_INDEX_NAME"; "AZURE_OPENAI_ENDPOINT"; "AZURE_OPENAI_KEY";
    "AZURE_OPENAI_API_VERSION"; "AZURE_OPENAI_CHAT_DEPLOYMENT" ].

End Startup.

(** The process as it stands once the module is imported. *)
Definition process_of (cfg : Startup.settings) : process :=
  {| azure_openai_chat_deployment := Startup.azure_openai_chat_deployment cfg;
     journal := [] |}.

(** ** Collaborators and requests used in the examples *)

(** A language-model service that gives [titles_reply] to the
    title-extraction request and [answer_reply] to any other. *)
Definition scripted_chat (titles_reply answer_reply : result chat_completion)
  : string → list chat_message → result chat_completion :=
  fun _ messages =>
    match messages with
    | m :: _ =>
      if String.eqb (msg_content m) titles_system_prompt
      then titles_reply else answer_reply
    | [] => answer_reply
    end.

(** A search index that gives the same reply to every filter. *)
Definition scripted_search (reply : result result_stream)
  : string → list string → result result_stream :=
  fun _ _ => reply.

Definition says (text : string) : result chat_completion :=
  Ok (ChatCompletion [Message (Some text)]).

Definition says_nothing : result chat_completion :=
  Ok (ChatCompletion [Message None]).

Definition dq : string := String (Ascii.ascii_of_nat 34) "".

(** [json.dumps] of a text without quotes, backslashes, control or
    non-ASCII characters other than the line feed. *)
Fixpoint dumps_text (s : string) : string :=
  match s with
  | "" => ""
  | String c rest =>
    (if Ascii.eqb c (Ascii.ascii_of_nat 10) then "\n" else String c "")
    +:+ dumps_text rest
  end.

Definition dumps_plain (d : response_data) : string :=
  "{" +:+ dq +:+ "openai_answer" +:+ dq +:+ ": "
      +:+ dq +:+ dumps_text (openai_answer d) +:+ dq +:+ ", "
      +:+ dq +:+ "retrieved_content" +:+ dq +:+ ": "
      +:+ dq +:+ dumps_text (retrieved_content d) +:+ dq +:+ "}".

(** [str] of the scalars [None], [True] and [False]; the requests of the
    examples carry texts, which [fmt] does not pass to it. *)
Definition str_scalar (v : json) : string :=
  match v with
  | JNull => "None"
  | JBool true => "True"
  | JBool false => "False"
  | _ => ""
  end.

(** A title extractor that finds no title. *)
Definition no_titles : json → M (list string) := fun _ => ret [].

Definition timed_out : exn := Exn "APITimeoutError" "Request timed out.".

Definition request_of (v : json) : HttpRequest := {| get_json := Ok v |}.

Definition query_request (q : string) : HttpRequest :=
  request_of (JObj {[ "query" := JStr q ]}).

Definition fresh_process : process :=
  {| azure_openai_chat_deployment := "gpt-4o"; journal := [] |}.

Definition sales_query : string :=
  "Find the report on sales using 'myreport.pdf'".

Definition sales_record : document :=
  {| title := "myreport.pdf"; doc_content := "Q3 sales up 10%" |}.

Definition sales_answer : string := "Sales are up 10% per myreport.pdf.".

(** An environment with the seven variables. *)
Definition sample_environ : gmap string string :=
  {[ "AZURE_SEARCH_SERVICE_ENDPOINT" := "https://example.search.windows.net";
     "AZURE_SEARCH_ADMIN_KEY" := "s3cr3t";
     "AZURE_SEARCH_INDEX_NAME" := "docs";
     "AZURE_OPENAI_ENDPOINT" := "https://example.openai.azure.com";
     "AZURE_OPENAI_KEY" := "k3y";
     "AZURE_OPENAI_API_VERSION" := "2024-02-01";
     "AZURE_OPENAI_CHAT_DEPLOYMENT" := "gpt-4o" ]}.

Definition sample_settings : Startup.settings :=
  {| Startup.search_endpoint := "https://example.search.windows.net";
     Startup.search_admin_key := "s3cr3t";
     Startup.index_name := "docs";
     Startup.azure_openai_endpoint := "https://example.openai.azure.com";
     Startup.azure_openai_key := "k3y";
     Startup.azure_openai_api_version := "2024-02-01";
     Startup.azure_openai_chat_deployment := "gpt-4o" |}.

(** The same environment without the index name. *)
Definition environ_without_index : gmap string string :=
  delete "AZURE_SEARCH_INDEX_NAME" sample_environ.

Definition connection_lost : exn := Exn "ServiceResponseError" "Connection lost.".

(** ** The handler *)

Section Handler.

(** The language-model service behind [client.chat.completions.create]:
    what it answers to a deployment name and a list of messages. *)
Variable chat_service : string → list chat_message → result chat_completion.

(** The search index behind [search_client.search]: what it answers to
    a filter and a list of selected fields. *)
Variable search_service : string → list string → result result_stream.

(** [json.dumps] on the dictionary of the response. *)
Variable json_dumps : response_data → string.

(** [str(v)] for a value that is not a string, as an f-string
    substitutes it. *)
Variable py_str : json → string.

(** The text an f-string puts in place of [{v}]. *)
Definition fmt (v : json) : string :=
  match v with
  | JStr s => s
  | _ => py_str v
  end.

(** [await client.chat.completions.create(model=..., messages=...)]. *)
Definition chat_completions_create (messages : list chat_message)
  : M chat_completion :=
  fun p =>
    let model := azure_openai_chat_deployment p in
    (chat_service model messages, record (ChatCall model messages) p).

(** [await search_client.search(filter=..., select=...)]. *)
Definition search_client_search (filter : string) (select : list string)
  : M result_stream :=
  fun p => (search_service filter select, record (SearchCall filter select) p).

Definition logging_info (msg : string) : M unit := emit (LogInfo msg).
Definition logging_error (msg : string) : M unit := emit (LogError msg).

Definition titles_messages (query : json) : list chat_message :=
  [ ChatMessage "system" titles_system_prompt;
    ChatMessage "user" ("Extract the titles from this query: " +:+ fmt query) ].

Definition answer_messages (query : json) (formatted_results : string)
  : list chat_message :=
  [ ChatMessage "system" answer_system_prompt;
    ChatMessage "user"
      ("Answer this query: '" +:+ fmt query
       +:+ "' using the following documents:" +:+ nl +:+ formatted_results) ].

(** [extract_titles], lines 38 to 55. *)
Definition extract_titles (query : json) : M (list string) :=
  response <- chat_completions_create (titles_messages query) ;;
  message <- lift (first_choice response) ;;
  ret (str_split (message_get_content message "") ", ").

(** [f"title eq '{title}'"]. *)
Definition filter_clause (title : string) : string :=
  "title eq '" +:+ title +:+ "'".

(** Line 86. *)
Definition filter_query (titles : list string) : string :=
  str_join " or " (filter_clause <$> titles).

(** [f"Title: {result['title']}\nContent: {result['content']}"]. *)
Definition format_result (d : document) : string :=
  "Title: " +:+ title d +:+ nl +:+ "Content: " +:+ doc_content d.

(** The list comprehension [[... async for result in results]]. *)
Fixpoint format_results (results : result_stream) : result (list string) :=
  match results with
  | StreamEnd => Ok []
  | StreamItem d rest =>
    match format_results rest with
    | Ok l => Ok (format_result d :: l)
    | Raise e => Raise e
    end
  | StreamRaise e => Raise e
  end.

(** Lines 84 to 92: the content block for a list of titles. *)
Definition fetch_content (titles : list string) : M string :=
  if list_truthy titles then
    results <- search_client_search (filter_query titles) ["title"; "content"] ;;
    blocks <- lift (format_results results) ;;
    let formatted_results := str_join nl blocks in
    if negb (str_truthy formatted_results)
    then ret "No relevant content found."
    else ret formatted_results
  else ret "".

(** Lines 94 to 107: the answer and the response of status 200. *)
Definition answer_query (query : json) (formatted_results : string)
  : M HttpResponse :=
  response <- chat_completions_create (answer_messages query formatted_results) ;;
  message <- lift (first_choice response) ;;
  let answer := message_get_content message "No answer generated." in
  let response_data :=
    {| openai_answer := answer; retrieved_content := formatted_results |} in
  ret {| body := json_dumps response_data;
         status_code := 200;
         mimetype := "application/json" |}.

(** The body of the [try] block, lines 76 to 107. [extract] is what the
    module-level name [extract_titles] is bound to when the handler
    runs. *)
Definition handler_try (extract : json → M (list string)) (req : HttpRequest)
  : M HttpResponse :=
  body <- lift (get_json req) ;;
  query <- lift (py_get body "query" (JStr "")) ;;
  if negb (truthy query) then
    ret {| body := "No query provided.";
           status_code := 400;
           mimetype := "text/plain" |}
  else
    titles <- extract query ;;
    formatted_results <- fetch_content titles ;;
    answer_query query formatted_results.

(** The [except Exception as e] block, lines 108 to 110. *)
Definition handler_except (e : exn) : M HttpResponse :=
  logging_error ("Error in QueryHandler: " +:+ exn_str e) ;;;
  ret {| body := "Error: " +:+ exn_str e;
         status_code := 500;
         mimetype := "text/plain" |}.

(** [handle_query_handler] with the title extractor made explicit. *)
Definition handle_query_with (extract : json → M (list string))
  (req : HttpRequest) : M HttpResponse :=
  logging_info "QueryHandler function processed a request." ;;;
  try_except (handler_try extract req) handler_except.

(** [handle_query_handler], lines 59 to 110. *)
Definition handle_query_handler (req : HttpRequest) : M HttpResponse :=
  handle_query_with extract_titles req.

(** The process after it has served the requests [reqs] in turn. *)
Definition serve (reqs : list HttpRequest) (p : process) : process :=
  foldl (fun p req => (handle_query_handler req p).2) p reqs.

(** *** The situations the properties speak of *)

(** The body of [req] is a JSON object whose ["query"] is the non-empty
    value [query]. *)
Definition valid_query (req : HttpRequest) (query : json) : Prop :=
  ∃ m, get_json req = Ok (JObj m)
       ∧ default (JStr "") (m !! "query") = query
       ∧ truthy query = true.

(** The title-extraction call, sent to the deployment [dep], comes back
    with a first choice, from which [titles] are parsed. *)
Definition extracted (dep : string) (query : json) (titles : list string)
  : Prop :=
  ∃ r m, chat_service dep (titles_messages query) = Ok r
         ∧ first_choice r = Ok m
         ∧ titles = str_split (message_get_content m "") ", ".

(** The search for [titles] returns the records [docs], all of them
    delivered. *)
Definition found (titles : list string) (docs : list document) : Prop :=
  search_service (filter_query titles) ["title"; "content"]
  = Ok (stream_of_list docs).

(** The search for [titles] is delivered in full and gives the content
    block [formatted_results]. *)
Definition retrieved (titles : list string) (formatted_results : string)
  : Prop :=
  ∃ results blocks,
    search_service (filter_query titles) ["title"; "content"] = Ok results
    ∧ format_results results = Ok blocks
    ∧ formatted_results =
        (if str_truthy (str_join nl blocks) then str_join nl blocks
         else "No relevant content found.").

(** The answer call comes back with the first choice [m]. *)
Definition answered (dep : string) (query : json)
  (formatted_results : string) (m : message) : Prop :=
  ∃ r, chat_service dep (answer_messages query formatted_results) = Ok r
       ∧ first_choice r = Ok m.

(** A step of the handler raises [e] for the request [req], after the
    outbound calls [calls] have been made. *)
Inductive failure (dep : string) (req : HttpRequest)
  : exn → list event → Prop :=
  | fail_get_json e :
      get_json req = Raise e →
      failure dep req e []
  | fail_body_get v e :
      get_json req = Ok v →
      py_get v "query" (JStr "") = Raise e →
      failure dep req e []
  | fail_titles_call q e :
      valid_query req q →
      chat_service dep (titles_messages q) = Raise e →
      failure dep req e [ChatCall dep (titles_messages q)]
  | fail_titles_choice q r e :
      valid_query req q →
      chat_service dep (titles_messages q) = Ok r →
      first_choice r = Raise e →
      failure dep req e [ChatCall dep (titles_messages q)]
  | fail_search q titles e :
      valid_query req q →
      extracted dep q titles →
      search_service (filter_query titles) ["title"; "content"] = Raise e →
      failure dep req e
        [ChatCall dep (titles_messages q);
         SearchCall (filter_query titles) ["title"; "content"]]
  | fail_stream q titles results e :
      valid_query req q →
      extracted dep q titles →
      search_service (filter_query titles) ["title"; "content"] = Ok results →
      format_results results = Raise e →
      failure dep req e
        [ChatCall dep (titles_messages q);
         SearchCall (filter_query titles) ["title"; "content"]]
  | fail_answer_call q titles formatted_results e :
      valid_query req q →
      extracted dep q titles →
      retrieved titles formatted_results →
      chat_service dep (answer_messages q formatted_results) = Raise e →
      failure dep req e
        [ChatCall dep (titles_messages q);
         SearchCall (filter_query titles) ["title"; "content"];
         ChatCall dep (answer_messages q formatted_results)]
  | fail_answer_choice q titles formatted_results r e :
      valid_query req q →
      extracted dep q titles →
      retrieved titles formatted_results →
      chat_service dep (answer_messages q formatted_results) = Ok r →
      first_choice r = Raise e →
      failure dep req e
        [ChatCall dep (titles_messages q);
         SearchCall (filter_query titles) ["title"; "content"];
         ChatCall dep (answer_messages q formatted_results)].

(** The outbound calls of a run that gets through, in their order. *)
Definition planned_calls (dep : string) (q : json) (titles : list string)
  (formatted_results : string) : list event :=
  [ ChatCall dep (titles_messages q);
    SearchCall (filter_query titles) ["title"; "content"];
    ChatCall dep (answer_messages q formatted_results) ].

(** ** Facts about strings *)

Lemma app_empty (t : string) : "" +:+ t = t.
Proof. reflexivity. Qed.

Lemma app_String (c : Ascii.ascii) (s t : string) :
  String c s +:+ t = String c (s +:+ t).
Proof. reflexivity. Qed.

Lemma string_app_nil_r (s : string) : s +:+ "" = s.
Proof.
  induction s as [|c s IH]; [done |]. by rewrite app_String, IH.
Qed.

Lemma string_app_assoc (s t u : string) : (s +:+ t) +:+ u = s +:+ (t +:+ u).
Proof.
  induction s as [|c s IH]; [done |]. by rewrite !app_String, IH.
Qed.

Lemma prefix_app (t s : string) :
  String.prefix t s = true → ∃ s2, s = t +:+ s2.
Proof.
  revert s. induction t as [|c t IH]; intros s H.
  - by exists s.
  - destruct s as [|d s]; simpl in H; [done |].
    destruct (Ascii.ascii_dec c d) as [->|]; [| done].
    destruct (IH s H) as [s2 ->]. by exists s2.
Qed.

Lemma str_truthy_app (s t : string) :
  str_truthy s = true → str_truthy (s +:+ t) = true.
Proof. by destruct s. Qed.

Lemma str_join_cons (sep x : string) (l : list string) :
  l ≠ [] → str_join sep (x :: l) = x +:+ sep +:+ str_join sep l.
Proof. by destruct l. Qed.

Lemma str_join_truthy (sep x : string) (l : list string) :
  str_truthy x = true → str_truthy (str_join sep (x :: l)) = true.
Proof.
  intros H. destruct l as [|y l]; [done |].
  rewrite str_join_cons by done. by apply str_truthy_app.
Qed.

(** [str.split] never returns the empty list. *)
Lemma split_go_nonempty (sep : string) (s : string) :
  ∀ skip cur, split_go sep skip cur s ≠ [].
Proof.
  induction s as [|c s IH]; intros skip cur; cbn [split_go]; [done |].
  destruct skip; [| apply IH].
  destruct (String.prefix sep (String c s)); [done | apply IH].
Qed.

Lemma str_split_nonempty (s sep : string) : str_split s sep ≠ [].
Proof. apply split_go_nonempty. Qed.

(** Joining the pieces with the separator gives the text back: while
    [skip] bytes of a separator [u +:+ t] are still to be stepped over,
    they are the next bytes [t] of the text. *)
Lemma split_go_join (sep : string) (s : string) :
  sep ≠ "" →
  ∀ skip cur u t s2,
    sep = u +:+ t → String.length t = skip → s = t +:+ s2 →
    str_join sep (split_go sep skip cur s) = cur +:+ s2.
Proof.
  intros Hsep. induction s as [|c s IH]; intros skip cur u t s2 Hu Hlen Hs.
  - destruct t; [| done]. rewrite app_empty in Hs. subst s2 skip.
    simpl. by rewrite string_app_nil_r.
  - destruct skip as [|k].
    + destruct t; simpl in Hlen; [| done]. rewrite app_empty in Hs. subst s2.
      cbn [split_go].
      destruct (String.prefix sep (String c s)) eqn:Hp.
      * rewrite str_join_cons by apply split_go_nonempty.
        destruct (prefix_app _ _ Hp) as [s3 Hs3].
        destruct sep as [|d sep']; [done |].
        rewrite app_String in Hs3. injection Hs3 as <- ->.
        rewrite (IH _ "" (String c "") sep' s3); try done.
        simpl. by rewrite Nat.sub_0_r.
      * rewrite (IH 0 _ sep "" s); try done.
        -- by rewrite string_app_assoc.
        -- by rewrite string_app_nil_r.
    + destruct t as [|d t]; simpl in Hlen; [done |].
      rewrite app_String in Hs. injection Hs as <- ->. injection Hlen as Hlen.
      cbn [split_go].
      apply (IH k cur (u +:+ String c "") t s2); try done.
      by rewrite string_app_assoc.
Qed.

Lemma str_join_split (s sep : string) :
  sep ≠ "" → str_join sep (str_split s sep) = s.
Proof.
  intros H. unfold str_split.
  rewrite (split_go_join sep s H 0 "" sep "" s); try done.
  by rewrite string_app_nil_r.
Qed.

(** ** Facts about computations *)

Lemma bind_ok {A B} (m : M A) (k : A → M B) (p p' : process) (a : A) :
  m p = (Ok a, p') → bind m k p = k a p'.
Proof. intros H. unfold bind. by rewrite H. Qed.

Lemma bind_raise {A B} (m : M A) (k : A → M B) (p p' : process) (e : exn) :
  m p = (Raise e, p') → bind m k p = (Raise e, p').
Proof. intros H. unfold bind. by rewrite H. Qed.

Lemma try_ok {A} (m : M A) (h : exn → M A) (p p' : process) (a : A) :
  m p = (Ok a, p') → try_except m h p = (Ok a, p').
Proof. intros H. unfold try_except. by rewrite H. Qed.

Lemma try_raise {A} (m : M A) (h : exn → M A) (p p' : process) (e : exn) :
  m p = (Raise e, p') → try_except m h p = h e p'.
Proof. intros H. unfold try_except. by rewrite H. Qed.

Lemma extend_nil (p : process) : extend p [] = p.
Proof. destruct p. unfold extend. simpl. by rewrite app_nil_r. Qed.

Lemma extend_extend (p : process) (a b : list event) :
  extend (extend p a) b = extend p (a ++ b).
Proof. unfold extend. simpl. by rewrite app_assoc. Qed.

Lemma record_extend (p : process) (ev : event) (evs : list event) :
  record ev (extend p evs) = extend p (evs ++ [ev]).
Proof. apply extend_extend. Qed.

Lemma format_results_of_list (docs : list document) :
  format_results (stream_of_list docs) = Ok (format_result <$> docs).
Proof.
  induction docs as [|d docs IH]; simpl; [done |]. by rewrite IH.
Qed.

Lemma filter_query_expression (titles : list string) :
  filter_query titles = filter_expression titles.
Proof.
  unfold filter_query. induction titles as [|t [|t' rest] IH]; [done..|].
  change (filter_clause t +:+ " or " +:+ str_join " or " (filter_clause <$> t' :: rest)
          = "title eq '" +:+ t +:+ "' or " +:+ filter_expression (t' :: rest)).
  rewrite IH. unfold filter_clause. by rewrite !string_app_assoc.
Qed.

Lemma content_block_join (docs : list document) :
  str_join nl (format_result <$> docs) = content_block docs.
Proof.
  induction docs as [|d [|d' rest] IH]; [done..|].
  change (format_result d +:+ nl +:+ str_join nl (format_result <$> d' :: rest)
          = "Title: " +:+ title d +:+ nl +:+ "Content: " +:+ doc_content d
            +:+ nl +:+ content_block (d' :: rest)).
  rewrite IH. unfold format_result. by rewrite !string_app_assoc.
Qed.

(** *** The steps of the handler, one by one *)

Lemma extract_titles_run (q : json) (titles : list string) (p : process) :
  extracted (azure_openai_chat_deployment p) q titles →
  extract_titles q p = (Ok titles, record (ChatCall (azure_openai_chat_deployment p) (titles_messages q)) p).
Proof.
  intros (r & m & Hc & Hm & ->).
  unfold extract_titles, bind, chat_completions_create, lift.
  by rewrite Hc, Hm.
Qed.

Lemma fetch_content_skip (p : process) : fetch_content [] p = (Ok "", p).
Proof. reflexivity. Qed.

Lemma fetch_content_run (titles : list string) (fr : string) (p : process) :
  titles ≠ [] →
  retrieved titles fr →
  fetch_content titles p
  = (Ok fr, record (SearchCall (filter_query titles) ["title"; "content"]) p).
Proof.
  intros Ht (results & blocks & Hs & Hf & ->).
  destruct titles as [|t titles]; [done |].
  unfold fetch_content, bind, search_client_search, lift.
  cbn [list_truthy]. rewrite Hs, Hf.
  by destruct (str_truthy (str_join nl blocks)).
Qed.

Lemma retrieved_found (titles : list string) (docs : list document) :
  found titles docs →
  retrieved titles
    (match docs with
     | [] => "No relevant content found."
     | _ => str_join nl (format_result <$> docs)
     end).
Proof.
  intros H. exists (stream_of_list docs), (format_result <$> docs).
  split; [done |]. split; [apply format_results_of_list |].
  destruct docs as [|d docs]; [done |].
  rewrite fmap_cons, str_join_truthy; done.
Qed.

Lemma answer_query_run (q : json) (fr : string) (m : message) (p : process) :
  answered (azure_openai_chat_deployment p) q fr m →
  answer_query q fr p
  = (Ok {| body := json_dumps
                     {| openai_answer := message_get_content m "No answer generated.";
                        retrieved_content := fr |};
           status_code := 200;
           mimetype := "application/json" |},
     record (ChatCall (azure_openai_chat_deployment p) (answer_messages q fr)) p).
Proof.
  intros (r & Hc & Hm).
  unfold answer_query, bind, chat_completions_create, lift.
  by rewrite Hc, Hm.
Qed.

Lemma handler_try_valid (extract : json → M (list string)) (req : HttpRequest)
    (q : json) (p : process) :
  valid_query req q →
  handler_try extract req p
  = (titles <- extract q ;;
     formatted_results <- fetch_content titles ;;
     answer_query q formatted_results) p.
Proof.
  intros (m & Hj & Hq & Ht).
  unfold handler_try. unfold bind at 1 2. unfold lift, py_get.
  rewrite Hj. cbn [py_get]. rewrite Hq, Ht. done.
Qed.

Lemma extract_titles_call_raises (q : json) (e : exn) (p : process) :
  chat_service (azure_openai_chat_deployment p) (titles_messages q) = Raise e →
  extract_titles q p
  = (Raise e, record (ChatCall (azure_openai_chat_deployment p) (titles_messages q)) p).
Proof.
  intros Hc. unfold extract_titles, bind, chat_completions_create.
  by rewrite Hc.
Qed.

Lemma extract_titles_choice_raises (q : json) (r : chat_completion) (e : exn)
    (p : process) :
  chat_service (azure_openai_chat_deployment p) (titles_messages q) = Ok r →
  first_choice r = Raise e →
  extract_titles q p
  = (Raise e, record (ChatCall (azure_openai_chat_deployment p) (titles_messages q)) p).
Proof.
  intros Hc Hm. unfold extract_titles, bind, chat_completions_create, lift.
  by rewrite Hc, Hm.
Qed.

Lemma fetch_content_search_raises (titles : list string) (e : exn) (p : process) :
  titles ≠ [] →
  search_service (filter_query titles) ["title"; "content"] = Raise e →
  fetch_content titles p
  = (Raise e, record (SearchCall (filter_query titles) ["title"; "content"]) p).
Proof.
  intros Ht Hs. destruct titles as [|t titles]; [done |].
  unfold fetch_content, bind, search_client_search.
  cbn [list_truthy]. by rewrite Hs.
Qed.

Lemma fetch_content_stream_raises (titles : list string)
    (results : result_stream) (e : exn) (p : process) :
  titles ≠ [] →
  search_service (filter_query titles) ["title"; "content"] = Ok results →
  format_results results = Raise e →
  fetch_content titles p
  = (Raise e, record (SearchCall (filter_query titles) ["title"; "content"]) p).
Proof.
  intros Ht Hs Hf. destruct titles as [|t titles]; [done |].
  unfold fetch_content, bind, search_client_search, lift.
  cbn [list_truthy]. by rewrite Hs, Hf.
Qed.

Lemma answer_query_call_raises (q : json) (fr : string) (e : exn) (p : process) :
  chat_service (azure_openai_chat_deployment p) (answer_messages q fr) = Raise e →
  answer_query q fr p
  = (Raise e, record (ChatCall (azure_openai_chat_deployment p) (answer_messages q fr)) p).
Proof.
  intros Hc. unfold answer_query, bind, chat_completions_create.
  by rewrite Hc.
Qed.

Lemma answer_query_choice_raises (q : json) (fr : string) (r : chat_completion)
    (e : exn) (p : process) :
  chat_service (azure_openai_chat_deployment p) (answer_messages q fr) = Ok r →
  first_choice r = Raise e →
  answer_query q fr p
  = (Raise e, record (ChatCall (azure_openai_chat_deployment p) (answer_messages q fr)) p).
Proof.
  intros Hc Hm. unfold answer_query, bind, chat_completions_create, lift.
  by rewrite Hc, Hm.
Qed.

Lemma extracted_nonempty (d : string) (q : json) (titles : list string) :
  extracted d q titles → titles ≠ [].
Proof. intros (r & m & _ & _ & ->). apply str_split_nonempty. Qed.

Lemma handle_query_with_unfold (extract : json → M (list string))
    (req : HttpRequest) (p : process) :
  handle_query_with extract req p
  = try_except (handler_try extract req) handler_except
      (record (LogInfo "QueryHandler function processed a request.") p).
Proof. reflexivity. Qed.

Lemma handler_except_run (e : exn) (p : process) :
  handler_except e p
  = (Ok {| body := "Error: " +:+ exn_str e;
           status_code := 500;
           mimetype := "text/plain" |},
     record (LogError ("Error in QueryHandler: " +:+ exn_str e)) p).
Proof. reflexivity. Qed.

(** A run that gets through: the titles, the content block and the
    answer are all obtained. *)
Lemma handle_query_with_run (extract : json → M (list string))
    (req : HttpRequest) (q : json) (titles : list string) (fr : string)
    (m : message) (p p1 : process) :
  valid_query req q →
  extract q (record (LogInfo "QueryHandler function processed a request.") p)
  = (Ok titles, p1) →
  titles ≠ [] →
  retrieved titles fr →
  answered (azure_openai_chat_deployment p1) q fr m →
  handle_query_with extract req p
  = (Ok {| body := json_dumps
                     {| openai_answer := message_get_content m "No answer generated.";
                        retrieved_content := fr |};
           status_code := 200;
           mimetype := "application/json" |},
     record (ChatCall (azure_openai_chat_deployment p1) (answer_messages q fr))
       (record (SearchCall (filter_query titles) ["title"; "content"]) p1)).
Proof.
  intros Hv He Ht Hr Ha.
  rewrite handle_query_with_unfold.
  apply try_ok. rewrite (handler_try_valid _ _ q) by done.
  rewrite (bind_ok _ _ _ _ _ He).
  rewrite (bind_ok _ _ _ _ _ (fetch_content_run _ _ _ Ht Hr)).
  exact (answer_query_run q fr m
           (record (SearchCall (filter_query titles) ["title"; "content"]) p1) Ha).
Qed.

(** ** The properties of the specification *)

(** C2. When the title extractor gives the empty list, the retrieval
    step returns the empty string without touching the search index; and a
    request that is valid and then answered gets the response of status
    200 whose [retrieved_content] is the empty string, the journal gaining
    the answer call only. *)
Theorem empty_titles_skip_retrieval :
  (∀ p, fetch_content [] p = (Ok "", p))
  ∧ ∀ (extract : json → M (list string)) (req : HttpRequest) (q : json)
      (m : message) (p p1 : process),
      valid_query req q →
      extract q (record (LogInfo "QueryHandler function processed a request.") p)
      = (Ok [], p1) →
      answered (azure_openai_chat_deployment p1) q "" m →
      handle_query_with extract req p
      = (Ok {| body := json_dumps
                         {| openai_answer :=
                              message_get_content m "No answer generated.";
                            retrieved_content := "" |};
               status_code := 200;
               mimetype := "application/json" |},
         record (ChatCall (azure_openai_chat_deployment p1) (answer_messages q ""))
           p1).
Proof.
  split; [done |].
  intros extract req q m p p1 Hv He Ha.
  rewrite handle_query_with_unfold.
  apply try_ok. rewrite (handler_try_valid _ _ q) by done.
  rewrite (bind_ok _ _ _ _ _ He).
  rewrite (bind_ok _ _ _ _ _ (fetch_content_skip p1)).
  by apply answer_query_run.
Qed.

(** C3. When the titles are not empty and the search returns the records
    [docs], at least one, a request that is valid and then answered gets
    the response of status 200 whose [retrieved_content] is the blocks of
    the records, in the order of the search, one line feed between two. *)
Theorem retrieved_content_blocks (extract : json → M (list string))
    (req : HttpRequest) (q : json) (titles : list string)
    (docs : list document) (m : message) (p p1 : process) :
  valid_query req q →
  extract q (record (LogInfo "QueryHandler function processed a request.") p)
  = (Ok titles, p1) →
  titles ≠ [] →
  found titles docs →
  docs ≠ [] →
  answered (azure_openai_chat_deployment p1) q (content_block docs) m →
  handle_query_with extract req p
  = (Ok {| body := json_dumps
                     {| openai_answer :=
                          message_get_content m "No answer generated.";
                        retrieved_content := content_block docs |};
           status_code := 200;
           mimetype := "application/json" |},
     record (ChatCall (azure_openai_chat_deployment p1)
               (answer_messages q (content_block docs)))
       (record (SearchCall (filter_query titles) ["title"; "content"]) p1)).
Proof.
  intros Hv He Ht Hf Hd Ha.
  apply (handle_query_with_run _ _ _ titles); try done.
  pose proof (retrieved_found _ _ Hf) as Hr.
  destruct docs as [|d docs]; [done |].
  by rewrite content_block_join in Hr.
Qed.

(** C4. When the titles are not empty and the search returns no record,
    a request that is valid and then answered gets the response of status
    200 whose [retrieved_content] is [No relevant content found.]. *)
Theorem no_records_sentinel (extract : json → M (list string))
    (req : HttpRequest) (q : json) (titles : list string)
    (m : message) (p p1 : process) :
  valid_query req q →
  extract q (record (LogInfo "QueryHandler function processed a request.") p)
  = (Ok titles, p1) →
  titles ≠ [] →
  found titles [] →
  answered (azure_openai_chat_deployment p1) q "No relevant content found." m →
  handle_query_with extract req p
  = (Ok {| body := json_dumps
                     {| openai_answer :=
                          message_get_content m "No answer generated.";
                        retrieved_content := "No relevant content found." |};
           status_code := 200;
           mimetype := "application/json" |},
     record (ChatCall (azure_openai_chat_deployment p1)
               (answer_messages q "No relevant content found."))
       (record (SearchCall (filter_query titles) ["title"; "content"]) p1)).
Proof.
  intros Hv He Ht Hf Ha.
  apply (handle_query_with_run _ _ _ titles); try done.
  exact (retrieved_found _ _ Hf).
Qed.

(** C5. When the body is a JSON object that has no ["query"], or whose
    ["query"] is empty (in Python's sense: [not query]), the handler
    returns status 400 with the body [No query provided.], and the journal
    gains the opening log line only: no call goes out. *)
Theorem missing_query_rejected (req : HttpRequest) (m : gmap string json)
    (p : process) :
  get_json req = Ok (JObj m) →
  m !! "query" = None ∨ (∃ v, m !! "query" = Some v ∧ truthy v = false) →
  handle_query_handler req p
  = (Ok {| body := "No query provided.";
           status_code := 400;
           mimetype := "text/plain" |},
     extend p [LogInfo "QueryHandler function processed a request."]).
Proof.
  intros Hj Hq.
  unfold handle_query_handler. rewrite handle_query_with_unfold.
  apply try_ok. unfold handler_try. unfold bind at 1 2. unfold lift.
  rewrite Hj. cbn [py_get].
  destruct Hq as [-> | (v & -> & Hv)]; [done |].
  simpl. by rewrite Hv.
Qed.

(** The body of the [try] block raises at each failing step, after the
    calls made so far. *)
Lemma handler_try_failure (req : HttpRequest) (e : exn) (calls : list event)
    (p : process) :
  failure (azure_openai_chat_deployment p) req e calls →
  handler_try extract_titles req p = (Raise e, extend p calls).
Proof.
  intros H.
  destruct H as [e Hj | v e Hj Hg | q e Hv Hc | q r e Hv Hc Hm
                 | q titles e Hv Hx Hs | q titles results e Hv Hx Hs Hf
                 | q titles fr e Hv Hx Hr Hc | q titles fr r e Hv Hx Hr Hc Hm].
  - unfold handler_try. unfold bind at 1. unfold lift.
    by rewrite Hj, extend_nil.
  - unfold handler_try. unfold bind at 1 2. unfold lift.
    by rewrite Hj, Hg, extend_nil.
  - rewrite (handler_try_valid _ _ q) by done.
    by rewrite (bind_raise _ _ _ _ _ (extract_titles_call_raises _ _ _ Hc)).
  - rewrite (handler_try_valid _ _ q) by done.
    by rewrite (bind_raise _ _ _ _ _ (extract_titles_choice_raises _ _ _ _ Hc Hm)).
  - rewrite (handler_try_valid _ _ q) by done.
    rewrite (bind_ok _ _ _ _ _ (extract_titles_run _ _ _ Hx)).
    rewrite (bind_raise _ _ _ _ _
               (fetch_content_search_raises _ _ _ (extracted_nonempty _ _ _ Hx) Hs)).
    unfold record. by rewrite extend_extend.
  - rewrite (handler_try_valid _ _ q) by done.
    rewrite (bind_ok _ _ _ _ _ (extract_titles_run _ _ _ Hx)).
    rewrite (bind_raise _ _ _ _ _
               (fetch_content_stream_raises _ _ _ _
                  (extracted_nonempty _ _ _ Hx) Hs Hf)).
    unfold record. by rewrite extend_extend.
  - rewrite (handler_try_valid _ _ q) by done.
    rewrite (bind_ok _ _ _ _ _ (extract_titles_run _ _ _ Hx)).
    rewrite (bind_ok _ _ _ _ _
               (fetch_content_run _ _ _ (extracted_nonempty _ _ _ Hx) Hr)).
    rewrite (answer_query_call_raises q fr e
               (record (SearchCall (filter_query titles) ["title"; "content"])
                  (record (ChatCall (azure_openai_chat_deployment p)
                             (titles_messages q)) p)) Hc).
    unfold record. by rewrite !extend_extend.
  - rewrite (handler_try_valid _ _ q) by done.
    rewrite (bind_ok _ _ _ _ _ (extract_titles_run _ _ _ Hx)).
    rewrite (bind_ok _ _ _ _ _
               (fetch_content_run _ _ _ (extracted_nonempty _ _ _ Hx) Hr)).
    rewrite (answer_query_choice_raises q fr r e
               (record (SearchCall (filter_query titles) ["title"; "content"])
                  (record (ChatCall (azure_openai_chat_deployment p)
                             (titles_messages q)) p)) Hc Hm).
    unfold record. by rewrite !extend_extend.
Qed.

Lemma chat_calls_differ (d : string) (q : json) (fr : string) :
  ChatCall d (titles_messages q) ≠ ChatCall d (answer_messages q fr).
Proof.
  unfold titles_messages, answer_messages. by intros [=].
Qed.

Lemma failure_calls_once (d : string) (req : HttpRequest) (e : exn)
    (calls : list event) :
  failure d req e calls → NoDup calls.
Proof.
  intros H. destruct H;
    repeat (apply NoDup_cons_2 || apply NoDup_nil_2);
    rewrite ?not_elem_of_cons; repeat split;
    try apply not_elem_of_nil; try done; apply chat_calls_differ.
Qed.

(** C6. When a step of the handler raises [e] (reading the body, the
    title-extraction call, the search, or the answer call), the handler
    returns status 500 with the text body [Error: ] followed by [str(e)];
    the journal shows the calls made before the failure, each of them
    once, and then the error line. *)
Theorem failure_gives_500 (req : HttpRequest) (e : exn) (calls : list event)
    (p : process) :
  failure (azure_openai_chat_deployment p) req e calls →
  handle_query_handler req p
  = (Ok {| body := "Error: " +:+ exn_str e;
           status_code := 500;
           mimetype := "text/plain" |},
     extend p (LogInfo "QueryHandler function processed a request."
               :: calls ++ [LogError ("Error in QueryHandler: " +:+ exn_str e)]))
  ∧ NoDup calls.
Proof.
  intros H. split; [| by eapply failure_calls_once].
  unfold handle_query_handler. rewrite handle_query_with_unfold.
  rewrite (try_raise _ _ _ _ _
             (handler_try_failure req e calls
                (record (LogInfo "QueryHandler function processed a request.") p)
                H)).
  rewrite handler_except_run. unfold record. by rewrite !extend_extend.
Qed.

Lemma fetch_content_journal (titles : list string) (p : process) :
  titles ≠ [] →
  (fetch_content titles p).2
  = record (SearchCall (filter_query titles) ["title"; "content"]) p.
Proof.
  intros Ht. destruct titles as [|t titles]; [done |].
  unfold fetch_content, bind, search_client_search, lift.
  cbn [list_truthy].
  destruct (search_service _ _) as [results|e]; [| done].
  destruct (format_results results) as [blocks|e]; [| done].
  by destruct (str_truthy (str_join nl blocks)).
Qed.

Lemma answer_query_journal (q : json) (fr : string) (p : process) :
  (answer_query q fr p).2
  = record (ChatCall (azure_openai_chat_deployment p) (answer_messages q fr)) p.
Proof.
  unfold answer_query, bind, chat_completions_create, lift.
  destruct (chat_service _ _) as [r|e]; [| done].
  by destruct (first_choice r).
Qed.

(** Once titles are there, and not empty, the next entry of the journal
    is the search for them. *)
Lemma search_call_follows (extract : json → M (list string))
    (req : HttpRequest) (q : json) (titles : list string) (p p1 : process) :
  valid_query req q →
  extract q (record (LogInfo "QueryHandler function processed a request.") p)
  = (Ok titles, p1) →
  titles ≠ [] →
  ∃ evs,
    (handle_query_with extract req p).2
    = extend p1 (SearchCall (filter_query titles) ["title"; "content"] :: evs).
Proof.
  intros Hv He Ht.
  rewrite handle_query_with_unfold. unfold try_except.
  rewrite (handler_try_valid _ _ q) by done.
  rewrite (bind_ok _ _ _ _ _ He). unfold bind at 1.
  pose proof (fetch_content_journal titles p1 Ht) as Hf.
  destruct (fetch_content titles p1) as [[fr|e] p2]; simpl in Hf; subst p2.
  - pose proof (answer_query_journal q fr
                  (record (SearchCall (filter_query titles) ["title"; "content"]) p1))
      as Ha.
    destruct (answer_query q fr _) as [[resp|e] p3]; simpl in Ha; subst p3.
    + eexists. unfold record. by rewrite extend_extend.
    + eexists. rewrite handler_except_run. unfold record.
      by rewrite !extend_extend.
  - eexists. rewrite handler_except_run. unfold record.
    by rewrite !extend_extend.
Qed.

(** C7. When the titles are not empty, the filter sent to the search
    index is [title eq 'T1' or title eq 'T2' or ...], one clause for each
    title of the list in its order, duplicates and quote characters
    included as they are; it is the entry of the journal that follows the
    title extraction. *)
Theorem search_filter_sent (extract : json → M (list string))
    (req : HttpRequest) (q : json) (titles : list string) (p p1 : process) :
  valid_query req q →
  extract q (record (LogInfo "QueryHandler function processed a request.") p)
  = (Ok titles, p1) →
  titles ≠ [] →
  ∃ evs,
    journal (handle_query_with extract req p).2
    = journal p1
      ++ SearchCall (filter_expression titles) ["title"; "content"] :: evs.
Proof.
  intros Hv He Ht.
  destruct (search_call_follows extract req q titles p p1 Hv He Ht) as [evs ->].
  exists evs. by rewrite filter_query_expression.
Qed.

(** C8. When the answer call comes back without a content field, the
    handler returns status 200 and the [openai_answer] of its body is
    [No answer generated.]. *)
Theorem absent_answer_fallback (req : HttpRequest) (q : json)
    (titles : list string) (fr : string) (m : message) (p : process) :
  valid_query req q →
  extracted (azure_openai_chat_deployment p) q titles →
  retrieved titles fr →
  answered (azure_openai_chat_deployment p) q fr m →
  content m = None →
  handle_query_handler req p
  = (Ok {| body := json_dumps
                     {| openai_answer := "No answer generated.";
                        retrieved_content := fr |};
           status_code := 200;
           mimetype := "application/json" |},
     extend p
       [LogInfo "QueryHandler function processed a request.";
        ChatCall (azure_openai_chat_deployment p) (titles_messages q);
        SearchCall (filter_query titles) ["title"; "content"];
        ChatCall (azure_openai_chat_deployment p) (answer_messages q fr)]).
Proof.
  intros Hv Hx Hr Ha Hc.
  unfold handle_query_handler.
  rewrite (handle_query_with_run extract_titles req q titles fr m p
             (record (ChatCall (azure_openai_chat_deployment p) (titles_messages q))
                (record (LogInfo "QueryHandler function processed a request.") p)));
    try done.
  - unfold message_get_content. rewrite Hc. unfold record.
    by rewrite !extend_extend.
  - exact (extract_titles_run q titles
             (record (LogInfo "QueryHandler function processed a request.") p) Hx).
  - by eapply extracted_nonempty.
Qed.

(** C10. Splitting on [", "] gives at least one piece, whatever the
    content and also when it is absent, so [extract_titles] never returns
    the empty list; and once a request is valid and the title-extraction
    call has come back with a choice, the search index is queried. *)
Theorem titles_never_empty :
  (∀ m : message, 1 ≤ length (str_split (message_get_content m "") ", "))
  ∧ (∀ (q : json) (p p' : process) (titles : list string),
       extract_titles q p = (Ok titles, p') → titles ≠ [])
  ∧ (∀ (req : HttpRequest) (q : json) (titles : list string) (p : process),
       valid_query req q →
       extracted (azure_openai_chat_deployment p) q titles →
       ∃ evs,
         journal (handle_query_handler req p).2
         = journal p
           ++ [LogInfo "QueryHandler function processed a request.";
               ChatCall (azure_openai_chat_deployment p) (titles_messages q);
               SearchCall (filter_query titles) ["title"; "content"]]
           ++ evs).
Proof.
  split; [| split].
  - intros m.
    pose proof (str_split_nonempty (message_get_content m "") ", ") as H.
    destruct (str_split _ _); [done | simpl; lia].
  - intros q p p' titles.
    unfold extract_titles, bind, chat_completions_create, lift.
    destruct (chat_service _ _) as [r|e]; [| done].
    destruct (first_choice r) as [m|e]; [| done].
    intros [= <- _]. apply str_split_nonempty.
  - intros req q titles p Hv Hx.
    destruct (search_call_follows extract_titles req q titles p _ Hv
                (extract_titles_run q titles
                   (record (LogInfo "QueryHandler function processed a request.") p)
                   Hx)
                (extracted_nonempty _ _ _ Hx)) as [evs Hj].
    exists evs. unfold handle_query_handler. rewrite Hj.
    simpl. by rewrite <- !app_assoc.
Qed.

(** The steps listed by [failure] are all the ways in which the body of
    the [try] block can raise. *)
Lemma failure_complete (req : HttpRequest) (e : exn) (p p' : process) :
  handler_try extract_titles req p = (Raise e, p') →
  ∃ calls, failure (azure_openai_chat_deployment p) req e calls.
Proof.
  destruct (get_json req) as [v|e0] eqn:Hj.
  2:{ unfold handler_try. unfold bind at 1. unfold lift. rewrite Hj.
      intros [= <- _]. eexists. by apply fail_get_json. }
  destruct (py_get v "query" (JStr "")) as [q|e0] eqn:Hg.
  2:{ unfold handler_try. unfold bind at 1 2. unfold lift. rewrite Hj, Hg.
      intros [= <- _]. eexists. by eapply fail_body_get. }
  destruct v as [| | | | | |m]; try done. injection Hg as Hq.
  destruct (truthy q) eqn:Ht.
  2:{ unfold handler_try. unfold bind at 1 2. unfold lift. rewrite Hj.
      cbn [py_get]. by rewrite Hq, Ht. }
  assert (valid_query req q) as Hv by (by exists m).
  rewrite (handler_try_valid _ _ q) by done.
  destruct (chat_service (azure_openai_chat_deployment p) (titles_messages q))
    as [r|e0] eqn:Hc.
  2:{ rewrite (bind_raise _ _ _ _ _ (extract_titles_call_raises _ _ _ Hc)).
      intros [= <- _]. eexists. by eapply fail_titles_call. }
  destruct (first_choice r) as [m0|e0] eqn:Hm.
  2:{ rewrite (bind_raise _ _ _ _ _ (extract_titles_choice_raises _ _ _ _ Hc Hm)).
      intros [= <- _]. eexists. by eapply fail_titles_choice. }
  set (titles := str_split (message_get_content m0 "") ", ").
  assert (extracted (azure_openai_chat_deployment p) q titles) as Hx
    by (by exists r, m0).
  pose proof (extracted_nonempty _ _ _ Hx) as Hne.
  rewrite (bind_ok _ _ _ _ _ (extract_titles_run _ _ _ Hx)).
  destruct (search_service (filter_query titles) ["title"; "content"])
    as [results|e0] eqn:Hs.
  2:{ rewrite (bind_raise _ _ _ _ _ (fetch_content_search_raises _ _ _ Hne Hs)).
      intros [= <- _]. eexists. by eapply fail_search. }
  destruct (format_results results) as [blocks|e0] eqn:Hf.
  2:{ rewrite (bind_raise _ _ _ _ _
                 (fetch_content_stream_raises _ _ _ _ Hne Hs Hf)).
      intros [= <- _]. eexists. by eapply fail_stream. }
  set (fr := if str_truthy (str_join nl blocks) then str_join nl blocks
             else "No relevant content found.").
  assert (retrieved titles fr) as Hr by (by exists results, blocks).
  rewrite (bind_ok _ _ _ _ _ (fetch_content_run _ _ _ Hne Hr)).
  destruct (chat_service (azure_openai_chat_deployment p) (answer_messages q fr))
    as [r2|e0] eqn:Hc2.
  2:{ rewrite (answer_query_call_raises q fr e0
                 (record (SearchCall (filter_query titles) ["title"; "content"])
                    (record (ChatCall (azure_openai_chat_deployment p)
                               (titles_messages q)) p)) Hc2).
      intros [= <- _]. eexists. by eapply fail_answer_call. }
  destruct (first_choice r2) as [m2|e0] eqn:Hm2.
  2:{ rewrite (answer_query_choice_raises q fr r2 e0
                 (record (SearchCall (filter_query titles) ["title"; "content"])
                    (record (ChatCall (azure_openai_chat_deployment p)
                               (titles_messages q)) p)) Hc2 Hm2).
      intros [= <- _]. eexists. by eapply fail_answer_choice. }
  rewrite (answer_query_run q fr m2
             (record (SearchCall (filter_query titles) ["title"; "content"])
                (record (ChatCall (azure_openai_chat_deployment p)
                           (titles_messages q)) p))); [done |].
  by exists r2.
Qed.

(** *** No state of the process reaches the response *)

Lemma stateless_ret {A} (a : A) : stateless (ret a).
Proof. by intros p. Qed.

Lemma stateless_lift {A} (r : result A) : stateless (lift r).
Proof. by intros p. Qed.

Lemma stateless_emit (ev : event) : stateless (emit ev).
Proof. by intros p. Qed.

Lemma stateless_chat (messages : list chat_message) :
  stateless (chat_completions_create messages).
Proof.
  intros p. split; [done |]. intros q Hq.
  unfold chat_completions_create. simpl. by rewrite Hq.
Qed.

Lemma stateless_search (filter : string) (select : list string) :
  stateless (search_client_search filter select).
Proof. by intros p. Qed.

Lemma stateless_bind {A B} (m : M A) (k : A → M B) :
  stateless m → (∀ a, stateless (k a)) → stateless (bind m k).
Proof.
  intros Hm Hk p. destruct (Hm p) as [Hd Hr]. unfold bind.
  split.
  - destruct (m p) as [[a|e] p'] eqn:Hp; simpl in *; [| done].
    destruct (Hk a p') as [Hd' _]. congruence.
  - intros q Hq. specialize (Hr q Hq).
    destruct (Hm q) as [Hdq _].
    destruct (m p) as [[a|e] p'], (m q) as [[a'|e'] q']; simpl in *;
      try congruence.
    injection Hr as ->. destruct (Hk a p') as [_ Hk']. apply Hk'. congruence.
Qed.

Lemma stateless_try {A} (m : M A) (h : exn → M A) :
  stateless m → (∀ e, stateless (h e)) → stateless (try_except m h).
Proof.
  intros Hm Hh p. destruct (Hm p) as [Hd Hr]. unfold try_except.
  split.
  - destruct (m p) as [[a|e] p'] eqn:Hp; simpl in *; [done |].
    destruct (Hh e p') as [Hd' _]. congruence.
  - intros q Hq. specialize (Hr q Hq).
    destruct (Hm q) as [Hdq _].
    destruct (m p) as [[a|e] p'], (m q) as [[a'|e'] q']; simpl in *;
      try congruence.
    injection Hr as ->. destruct (Hh e p') as [_ Hh']. apply Hh'. congruence.
Qed.

Lemma stateless_extract_titles (q : json) : stateless (extract_titles q).
Proof.
  unfold extract_titles.
  apply stateless_bind; [apply stateless_chat |]. intros r.
  apply stateless_bind; [apply stateless_lift |]. intros m.
  apply stateless_ret.
Qed.

Lemma stateless_fetch_content (titles : list string) :
  stateless (fetch_content titles).
Proof.
  unfold fetch_content. destruct (list_truthy titles); [| apply stateless_ret].
  apply stateless_bind; [apply stateless_search |]. intros results.
  apply stateless_bind; [apply stateless_lift |]. intros blocks.
  destruct (negb _); apply stateless_ret.
Qed.

Lemma stateless_answer_query (q : json) (fr : string) :
  stateless (answer_query q fr).
Proof.
  unfold answer_query.
  apply stateless_bind; [apply stateless_chat |]. intros r.
  apply stateless_bind; [apply stateless_lift |]. intros m.
  apply stateless_ret.
Qed.

Lemma stateless_handle_query_with (extract : json → M (list string))
    (req : HttpRequest) :
  (∀ q, stateless (extract q)) → stateless (handle_query_with extract req).
Proof.
  intros Hx. unfold handle_query_with, logging_info.
  apply stateless_bind; [apply stateless_emit |]. intros _.
  apply stateless_try.
  - unfold handler_try.
    apply stateless_bind; [apply stateless_lift |]. intros body.
    apply stateless_bind; [apply stateless_lift |]. intros query.
    destruct (negb _); [apply stateless_ret |].
    apply stateless_bind; [apply Hx |]. intros titles.
    apply stateless_bind; [apply stateless_fetch_content |]. intros fr.
    apply stateless_answer_query.
  - intros e. unfold handler_except, logging_error.
    apply stateless_bind; [apply stateless_emit |]. intros _.
    apply stateless_ret.
Qed.

Lemma stateless_handler (req : HttpRequest) :
  stateless (handle_query_handler req).
Proof.
  apply stateless_handle_query_with, stateless_extract_titles.
Qed.

Lemma serve_deployment (reqs : list HttpRequest) (p : process) :
  azure_openai_chat_deployment (serve reqs p) = azure_openai_chat_deployment p.
Proof.
  revert p. induction reqs as [|req reqs IH]; intros p; [done |].
  unfold serve in *. simpl. rewrite IH.
  by destruct (stateless_handler req p) as [-> _].
Qed.

(** The handler always returns a response: nothing it raises escapes. *)
Lemma handler_returns (req : HttpRequest) (p : process) :
  ∃ resp, (handle_query_handler req p).1 = Ok resp.
Proof.
  unfold handle_query_handler. rewrite handle_query_with_unfold.
  unfold try_except.
  destruct (handler_try extract_titles req _) as [[resp|e] p']; by eexists.
Qed.

(** C9. With the two services fixed, the response to a request does not
    depend on what the process has served before: after the request [req]
    and then any requests [reqs], the same [req] gets the same response,
    and so the same body. *)
Theorem same_request_same_response (req : HttpRequest)
    (reqs : list HttpRequest) (p : process) :
  (handle_query_handler req (serve reqs (handle_query_handler req p).2)).1
  = (handle_query_handler req p).1.
Proof.
  destruct (stateless_handler req p) as [Hd Hr].
  apply Hr. by rewrite serve_deployment.
Qed.

(** ** Further properties of the handler *)

Lemma handler_try_rejects (extract : json → M (list string))
    (req : HttpRequest) (m : gmap string json) (p : process) :
  get_json req = Ok (JObj m) →
  truthy (default (JStr "") (m !! "query")) = false →
  handler_try extract req p
  = (Ok {| body := "No query provided.";
           status_code := 400;
           mimetype := "text/plain" |}, p).
Proof.
  intros Hj Ht. unfold handler_try. unfold bind at 1 2. unfold lift.
  rewrite Hj. cbn [py_get]. by rewrite Ht.
Qed.

Lemma handler_try_run (req : HttpRequest) (q : json) (titles : list string)
    (fr : string) (m : message) (p : process) :
  valid_query req q →
  extracted (azure_openai_chat_deployment p) q titles →
  retrieved titles fr →
  answered (azure_openai_chat_deployment p) q fr m →
  handler_try extract_titles req p
  = (Ok {| body := json_dumps
                     {| openai_answer := message_get_content m "No answer generated.";
                        retrieved_content := fr |};
           status_code := 200;
           mimetype := "application/json" |},
     extend p (planned_calls (azure_openai_chat_deployment p) q titles fr)).
Proof.
  intros Hv Hx Hr Ha.
  rewrite (handler_try_valid _ _ q) by done.
  rewrite (bind_ok _ _ _ _ _ (extract_titles_run _ _ _ Hx)).
  rewrite (bind_ok _ _ _ _ _
             (fetch_content_run _ _ _ (extracted_nonempty _ _ _ Hx) Hr)).
  rewrite (answer_query_run q fr m
             (record (SearchCall (filter_query titles) ["title"; "content"])
                (record (ChatCall (azure_openai_chat_deployment p)
                           (titles_messages q)) p)) Ha).
  unfold record, planned_calls. by rewrite !extend_extend.
Qed.

(** The three ways the body of the [try] block can end. *)
Lemma handler_try_cases (req : HttpRequest) (p : process) :
  (∃ m, get_json req = Ok (JObj m)
        ∧ truthy (default (JStr "") (m !! "query")) = false
        ∧ handler_try extract_titles req p
          = (Ok {| body := "No query provided.";
                   status_code := 400;
                   mimetype := "text/plain" |}, p))
  ∨ (∃ q titles fr m,
       valid_query req q
       ∧ extracted (azure_openai_chat_deployment p) q titles
       ∧ retrieved titles fr
       ∧ answered (azure_openai_chat_deployment p) q fr m
       ∧ handler_try extract_titles req p
         = (Ok {| body := json_dumps
                            {| openai_answer :=
                                 message_get_content m "No answer generated.";
                               retrieved_content := fr |};
                  status_code := 200;
                  mimetype := "application/json" |},
            extend p (planned_calls (azure_openai_chat_deployment p) q titles fr)))
  ∨ (∃ e calls,
       failure (azure_openai_chat_deployment p) req e calls
       ∧ handler_try extract_titles req p = (Raise e, extend p calls)).
Proof.
  destruct (handler_try extract_titles req p) as [[resp|e] p'] eqn:Hrun.
  2:{ right; right. destruct (failure_complete req e p p' Hrun) as [calls Hf].
      exists e, calls. split; [done |].
      rewrite <- Hrun. by apply handler_try_failure. }
  rewrite <- Hrun. clear Hrun resp p'.
  destruct (get_json req) as [v|e0] eqn:Hj.
  2:{ right; right. eexists _, _.
      split; [by apply fail_get_json | by apply handler_try_failure, fail_get_json]. }
  destruct (py_get v "query" (JStr "")) as [q|e0] eqn:Hg.
  2:{ right; right. eexists _, _.
      split; [by eapply fail_body_get
             | by eapply handler_try_failure, fail_body_get]. }
  destruct v as [| | | | | |m]; try done. injection Hg as Hq.
  destruct (truthy q) eqn:Ht.
  2:{ left. exists m. subst q. split; [done |]. split; [done |].
      by apply (handler_try_rejects _ _ m). }
  assert (valid_query req q) as Hv by (by exists m).
  destruct (chat_service (azure_openai_chat_deployment p) (titles_messages q))
    as [r|e0] eqn:Hc.
  2:{ right; right. eexists _, _.
      split; [by eapply fail_titles_call
             | by eapply handler_try_failure, fail_titles_call]. }
  destruct (first_choice r) as [m0|e0] eqn:Hm.
  2:{ right; right. eexists _, _.
      split; [by eapply fail_titles_choice
             | by eapply handler_try_failure, fail_titles_choice]. }
  set (titles := str_split (message_get_content m0 "") ", ").
  assert (extracted (azure_openai_chat_deployment p) q titles) as Hx
    by (by exists r, m0).
  destruct (search_service (filter_query titles) ["title"; "content"])
    as [results|e0] eqn:Hs.
  2:{ right; right. eexists _, _.
      split; [by eapply fail_search
             | by eapply handler_try_failure, fail_search]. }
  destruct (format_results results) as [blocks|e0] eqn:Hf.
  2:{ right; right. eexists _, _.
      split; [by eapply fail_stream
             | by eapply handler_try_failure, fail_stream]. }
  set (fr := if str_truthy (str_join nl blocks) then str_join nl blocks
             else "No relevant content found.").
  assert (retrieved titles fr) as Hr by (by exists results, blocks).
  destruct (chat_service (azure_openai_chat_deployment p) (answer_messages q fr))
    as [r2|e0] eqn:Hc2.
  2:{ right; right. eexists _, _.
      split; [by eapply fail_answer_call
             | by eapply handler_try_failure, fail_answer_call]. }
  destruct (first_choice r2) as [m2|e0] eqn:Hm2.
  2:{ right; right. eexists _, _.
      split; [by eapply fail_answer_choice
             | by eapply handler_try_failure, fail_answer_choice]. }
  right; left. exists q, titles, fr, m2.
  assert (answered (azure_openai_chat_deployment p) q fr m2) as Ha
    by (by exists r2).
  repeat split; try done.
  exact (handler_try_run req q titles fr m2 p Hv Hx Hr Ha).
Qed.

Lemma retrieved_truthy (titles : list string) (fr : string) :
  retrieved titles fr → fr ≠ "".
Proof.
  intros (results & blocks & _ & _ & ->).
  destruct (str_truthy (str_join nl blocks)) eqn:H; [| done].
  by destruct (str_join nl blocks).
Qed.

Lemma failure_calls_planned (d : string) (req : HttpRequest) (e : exn)
    (calls : list event) :
  failure d req e calls →
  ∃ q titles fr, calls `prefix_of` planned_calls d q titles fr.
Proof.
  intros H.
  destruct H as [e Hj | v e Hj Hg | q e Hv Hc | q r e Hv Hc Hm
                 | q titles e Hv Hx Hs | q titles results e Hv Hx Hs Hf
                 | q titles fr e Hv Hx Hr Hc | q titles fr r e Hv Hx Hr Hc Hm].
  - exists JNull, [], "". apply prefix_nil.
  - exists JNull, [], "". apply prefix_nil.
  - exists q, [], "". by eexists.
  - exists q, [], "". by eexists.
  - exists q, titles, "". by eexists.
  - exists q, titles, "". by eexists.
  - exists q, titles, fr. by exists [].
  - exists q, titles, fr. by exists [].
Qed.

Lemma handler_run_failure (req : HttpRequest) (e : exn) (calls : list event)
    (p : process) :
  failure (azure_openai_chat_deployment p) req e calls →
  handle_query_handler req p
  = (Ok {| body := "Error: " +:+ exn_str e;
           status_code := 500;
           mimetype := "text/plain" |},
     extend p (LogInfo "QueryHandler function processed a request."
               :: calls ++ [LogError ("Error in QueryHandler: " +:+ exn_str e)])).
Proof.
  intros H. unfold handle_query_handler. rewrite handle_query_with_unfold.
  rewrite (try_raise _ _ _ _ _
             (handler_try_failure req e calls
                (record (LogInfo "QueryHandler function processed a request.") p)
                H)).
  rewrite handler_except_run. unfold record. by rewrite !extend_extend.
Qed.

(** The three ways a request can end, with the response and the journal
    of each. *)
Lemma handler_cases (req : HttpRequest) (p : process) :
  (∃ m, get_json req = Ok (JObj m)
        ∧ truthy (default (JStr "") (m !! "query")) = false
        ∧ handle_query_handler req p
          = (Ok {| body := "No query provided.";
                   status_code := 400;
                   mimetype := "text/plain" |},
             extend p [LogInfo "QueryHandler function processed a request."]))
  ∨ (∃ q titles fr m,
       valid_query req q
       ∧ extracted (azure_openai_chat_deployment p) q titles
       ∧ retrieved titles fr
       ∧ answered (azure_openai_chat_deployment p) q fr m
       ∧ handle_query_handler req p
         = (Ok {| body := json_dumps
                            {| openai_answer :=
                                 message_get_content m "No answer generated.";
                               retrieved_content := fr |};
                  status_code := 200;
                  mimetype := "application/json" |},
            extend p (LogInfo "QueryHandler function processed a request."
                      :: planned_calls (azure_openai_chat_deployment p)
                           q titles fr)))
  ∨ (∃ e calls,
       failure (azure_openai_chat_deployment p) req e calls
       ∧ handle_query_handler req p
         = (Ok {| body := "Error: " +:+ exn_str e;
                  status_code := 500;
                  mimetype := "text/plain" |},
            extend p (LogInfo "QueryHandler function processed a request."
                      :: calls
                      ++ [LogError ("Error in QueryHandler: " +:+ exn_str e)]))).
Proof.
  destruct (handler_try_cases req
              (record (LogInfo "QueryHandler function processed a request.") p))
    as [(m & Hj & Ht & Hrun)
       | [(q & titles & fr & m & Hv & Hx & Hr & Ha & Hrun)
         | (e & calls & Hf & Hrun)]].
  - left. exists m. repeat split; try done.
    unfold handle_query_handler. rewrite handle_query_with_unfold.
    by rewrite (try_ok _ _ _ _ _ Hrun).
  - right; left. exists q, titles, fr, m. repeat split; try done.
    unfold handle_query_handler. rewrite handle_query_with_unfold.
    rewrite (try_ok _ _ _ _ _ Hrun). unfold record. by rewrite extend_extend.
  - right; right. exists e, calls. split; [done |].
    by apply handler_run_failure.
Qed.



(** X3. The response has status 400 exactly when the body is a JSON
    object whose ["query"] is absent or falsy. *)
Theorem bad_request_iff (req : HttpRequest) (p : process)
    (resp : HttpResponse) :
  (handle_query_handler req p).1 = Ok resp →
  (status_code resp = 400%Z
   ↔ ∃ m, get_json req = Ok (JObj m)
          ∧ truthy (default (JStr "") (m !! "query")) = false).
Proof.
  intros Hresp. split.
  - intros Hs.
    destruct (handler_cases req p)
      as [(m & Hj & Ht & Hrun)
         | [(q & titles & fr & m & _ & _ & _ & _ & Hrun)
           | (e & calls & Hf & Hrun)]];
      rewrite Hrun in Hresp; injection Hresp as <-; try done.
    by exists m.
  - intros (m & Hj & Ht).
    unfold handle_query_handler in Hresp.
    rewrite handle_query_with_unfold in Hresp.
    rewrite (try_ok _ _ _ _ _ (handler_try_rejects _ _ m _ Hj Ht)) in Hresp.
    by injection Hresp as <-.
Qed.

(** X4. A body that parses to a JSON value other than an object is not
    rejected with 400: [body.get] raises [AttributeError], and the
    response is 500 with the text of that error; no call goes out. *)
Theorem non_object_body_500 (req : HttpRequest) (v : json) (p : process) :
  get_json req = Ok v →
  (∀ m, v ≠ JObj m) →
  handle_query_handler req p
  = (Ok {| body := "Error: '" +:+ type_name v
                   +:+ "' object has no attribute 'get'";
           status_code := 500;
           mimetype := "text/plain" |},
     extend p [LogInfo "QueryHandler function processed a request.";
               LogError ("Error in QueryHandler: '" +:+ type_name v
                         +:+ "' object has no attribute 'get'")]).
Proof.
  intros Hj Hv.
  assert (py_get v "query" (JStr "")
          = Raise (Exn "AttributeError"
                     ("'" +:+ type_name v +:+ "' object has no attribute 'get'")))
    as Hg.
  { destruct v; try done. by destruct (Hv m). }
  by rewrite (handler_run_failure req _ [] p
                (fail_body_get _ req v _ Hj Hg)).
Qed.

Lemma failure_calls_filter (d : string) (req : HttpRequest) (e : exn)
    (calls : list event) (msg : string) :
  failure d req e calls →
  filter is_call (LogInfo "QueryHandler function processed a request."
                  :: calls ++ [LogError msg])
  = calls.
Proof. intros H. by destruct H. Qed.

(** X5. Whatever the request and the services, the handler appends to
    the journal, and the outbound calls it appends are an initial part of:
    the title-extraction call, the search, the answer call. So it makes at
    most two language-model calls and one search, never a search before
    the titles and never an answer call before the search. *)
Theorem calls_in_order (req : HttpRequest) (p : process) :
  ∃ evs q titles fr,
    (handle_query_handler req p).2 = extend p evs
    ∧ filter is_call evs
      `prefix_of` planned_calls (azure_openai_chat_deployment p) q titles fr.
Proof.
  destruct (handler_cases req p)
    as [(m & _ & _ & ->)
       | [(q & titles & fr & m & _ & _ & _ & _ & ->) | (e & calls & Hf & ->)]].
  - eexists _, JNull, [], "". split; [done |]. apply prefix_nil.
  - eexists _, q, titles, fr. split; [done |]. by exists [].
  - destruct (failure_calls_planned _ _ _ _ Hf) as (q & titles & fr & Hp).
    eexists _, q, titles, fr. split; [done |].
    by rewrite (failure_calls_filter _ _ _ _ _ Hf).
Qed.

(** X6. A response of status 200 is only produced by a run that got
    through: the query is valid, titles were extracted, the search was
    delivered in full, the answer call came back, and the journal gained
    the opening line and the three calls, nothing else. *)
Theorem ok_response_shape (req : HttpRequest) (p : process)
    (resp : HttpResponse) :
  (handle_query_handler req p).1 = Ok resp →
  status_code resp = 200%Z →
  ∃ q titles fr m,
    valid_query req q
    ∧ extracted (azure_openai_chat_deployment p) q titles
    ∧ retrieved titles fr
    ∧ answered (azure_openai_chat_deployment p) q fr m
    ∧ body resp
      = json_dumps {| openai_answer := message_get_content m "No answer generated.";
                      retrieved_content := fr |}
    ∧ (handle_query_handler req p).2
      = extend p (LogInfo "QueryHandler function processed a request."
                  :: planned_calls (azure_openai_chat_deployment p) q titles fr).
Proof.
  intros Hresp Hs.
  destruct (handler_cases req p)
    as [(m & _ & _ & Hrun)
       | [(q & titles & fr & m & Hv & Hx & Hr & Ha & Hrun)
         | (e & calls & Hf & Hrun)]];
    rewrite Hrun in Hresp; injection Hresp as <-; try done.
  exists q, titles, fr, m. by rewrite Hrun.
Qed.

(** X7. The [retrieved_content] of a response of status 200 is never the
    empty string: the handler always searches, and the content block is
    the records found or the sentinel. *)
Theorem retrieved_content_never_empty (req : HttpRequest) (p : process)
    (resp : HttpResponse) :
  (handle_query_handler req p).1 = Ok resp →
  status_code resp = 200%Z →
  ∃ answer fr,
    body resp = json_dumps {| openai_answer := answer; retrieved_content := fr |}
    ∧ fr ≠ "".
Proof.
  intros Hresp Hs.
  destruct (handler_cases req p)
    as [(m & _ & _ & Hrun)
       | [(q & titles & fr & m & Hv & Hx & Hr & Ha & Hrun)
         | (e & calls & Hf & Hrun)]];
    rewrite Hrun in Hresp; injection Hresp as <-; try done.
  eexists _, fr. split; [done |]. by eapply retrieved_truthy.
Qed.

Lemma format_results_failing (docs : list document) (e : exn) :
  format_results (stream_failing docs e) = Raise e.
Proof.
  induction docs as [|d docs IH]; simpl; [done |]. by rewrite IH.
Qed.

(** X8. When the result stream raises after it has yielded some records,
    those records are dropped: the response is 500 with the text of the
    exception, and no answer call is made. *)
Theorem partial_stream_discarded (req : HttpRequest) (q : json)
    (titles : list string) (docs : list document) (e : exn) (p : process) :
  valid_query req q →
  extracted (azure_openai_chat_deployment p) q titles →
  search_service (filter_query titles) ["title"; "content"]
  = Ok (stream_failing docs e) →
  handle_query_handler req p
  = (Ok {| body := "Error: " +:+ exn_str e;
           status_code := 500;
           mimetype := "text/plain" |},
     extend p [LogInfo "QueryHandler function processed a request.";
               ChatCall (azure_openai_chat_deployment p) (titles_messages q);
               SearchCall (filter_query titles) ["title"; "content"];
               LogError ("Error in QueryHandler: " +:+ exn_str e)]).
Proof.
  intros Hv Hx Hs.
  by rewrite (handler_run_failure req e _ p
                (fail_stream _ req q titles _ e Hv Hx Hs
                   (format_results_failing docs e))).
Qed.

(** X9. The content block is the sentinel exactly when the search
    delivered no record: a block of records never reads
    [No relevant content found.]. *)
Theorem sentinel_iff_no_records (titles : list string) (docs : list document)
    (fr : string) (p : process) :
  titles ≠ [] →
  found titles docs →
  (fetch_content titles p).1 = Ok fr →
  (fr = "No relevant content found." ↔ docs = []).
Proof.
  intros Ht Hf Hrun.
  rewrite (fetch_content_run _ _ p Ht (retrieved_found _ _ Hf)) in Hrun.
  injection Hrun as <-.
  destruct docs as [|d docs]; [done |].
  split; [| done]. intros H. exfalso.
  assert (str_join nl (format_result <$> d :: docs)
          = "T" +:+ ("itle: " +:+ title d +:+ nl +:+ "Content: " +:+ doc_content d
                     +:+ match docs with
                         | [] => ""
                         | _ => nl +:+ str_join nl (format_result <$> docs)
                         end)) as Hj.
  { destruct docs as [|d' docs]; unfold format_result;
      rewrite ?fmap_cons; cbn [str_join fmap list_fmap];
      rewrite ?string_app_assoc, ?string_app_nil_r; try done. }
  rewrite Hj in H. discriminate H.
Qed.

(** Walks through the entries of a concrete list in which [H] finds a
    language-model call. *)
Local Ltac find_chat_call H :=
  repeat (apply elem_of_cons in H as [H|H];
          [ try discriminate H; try (injection H as -> _; by right) | ]);
  try (by apply elem_of_nil in H).

(** Every language-model call the handler adds to the journal names the
    deployment of the process. *)
Lemma chat_calls_model (req : HttpRequest) (p : process) (model : string)
    (messages : list chat_message) :
  ChatCall model messages ∈ journal (handle_query_handler req p).2 →
  ChatCall model messages ∈ journal p
  ∨ model = azure_openai_chat_deployment p.
Proof.
  destruct (handler_cases req p)
    as [(m & _ & _ & ->)
       | [(q & titles & fr & m & _ & _ & _ & _ & ->) | (e & calls & Hf & ->)]];
    simpl; rewrite elem_of_app; intros [H | H]; try (by left).
  - find_chat_call H.
  - unfold planned_calls in H. find_chat_call H.
  - destruct Hf; simpl in H; find_chat_call H.
Qed.

(** ** Further properties of the title extraction *)

Lemma string_length_app (a b : string) :
  String.length (a +:+ b) = String.length a + String.length b.
Proof.
  induction a as [|c a IH]; [done |]. rewrite app_String. simpl. by rewrite IH.
Qed.

Lemma string_app_inv (a c x y : string) :
  a +:+ x = c +:+ y → String.length a = String.length c → a = c ∧ x = y.
Proof.
  revert c. induction a as [|d a IH]; intros [|d' c] H Hl; try done.
  rewrite !app_String in H. injection H as -> H. injection Hl as Hl.
  by destruct (IH c H Hl) as [-> ->].
Qed.

Lemma prefix_complete (t s2 : string) : String.prefix t (t +:+ s2) = true.
Proof.
  induction t as [|c t IH]; [by destruct s2 |].
  rewrite app_String. simpl. by destruct (Ascii.ascii_dec c c).
Qed.

Lemma str_contains_occurs (sep s : string) :
  str_contains sep s = true ↔ occurs sep s.
Proof.
  split.
  - induction s as [|c s IH]; cbn [str_contains].
    + intros H. destruct (prefix_app _ _ H) as [s2 Hs]. by exists "", s2.
    + intros [H | H]%orb_true_iff.
      * destruct (prefix_app _ _ H) as [s2 Hs]. by exists "", s2.
      * destruct (IH H) as (a & b & ->). by exists (String c a), b.
  - intros (a & b & ->). induction a as [|c a IH].
    + rewrite app_empty. destruct (sep +:+ b) eqn:E; cbn [str_contains].
      * rewrite <- E. apply prefix_complete.
      * rewrite <- E. by rewrite prefix_complete.
    + rewrite app_String. cbn [str_contains]. rewrite IH. apply orb_true_r.
Qed.

(** No piece of a split contains the separator: while a piece is being
    read, no occurrence of the separator starts inside it. *)
Lemma split_go_pieces (sep : string) (s : string) :
  sep ≠ "" →
  ∀ skip cur,
    (skip = 0 → ∀ a b, cur +:+ s = a +:+ sep +:+ b →
                String.length cur ≤ String.length a) →
    (skip ≠ 0 → cur = "") →
    Forall (λ t, ¬ occurs sep t) (split_go sep skip cur s).
Proof.
  intros Hsep.
  assert (∀ cur s', (∀ a b, cur +:+ s' = a +:+ sep +:+ b →
                            String.length cur ≤ String.length a) →
                    ¬ occurs sep cur) as Hcur.
  { intros cur s' Hin (a & b & Hab).
    specialize (Hin a (b +:+ s')).
    rewrite Hab, !string_app_assoc in Hin. specialize (Hin eq_refl).
    rewrite !string_length_app in Hin.
    destruct sep; [done |]. simpl in Hin. lia. }
  induction s as [|c s IH]; intros skip cur H0 Hs.
  - cbn [split_go]. apply Forall_singleton.
    destruct skip as [|k].
    + by apply (Hcur cur ""), H0.
    + rewrite Hs by done. intros (a & b & Hab).
      destruct a, sep; done.
  - cbn [split_go]. destruct skip as [|k].
    + destruct (String.prefix sep (String c s)) eqn:Hp.
      * apply Forall_cons. split; [by apply (Hcur cur (String c s)), H0 |].
        apply IH; [| done]. intros _ a b _. simpl. lia.
      * apply IH; [| done]. intros _ a b Hab.
        rewrite string_app_assoc, app_String, app_empty in Hab.
        pose proof (H0 eq_refl a b Hab) as Hle.
        rewrite string_length_app. simpl.
        destruct (decide (String.length cur = String.length a)) as [Heq|]; [| lia].
        destruct (string_app_inv _ _ _ _ Hab Heq) as [_ Hs'].
        rewrite Hs', prefix_complete in Hp. done.
    + apply IH.
      * intros -> a b _. rewrite Hs by done. simpl. lia.
      * intros _. by apply Hs.
Qed.

Lemma str_split_pieces (s sep : string) :
  sep ≠ "" → Forall (λ t, str_contains sep t = false) (str_split s sep).
Proof.
  intros Hsep.
  eapply Forall_impl;
    [apply (split_go_pieces sep s Hsep 0 ""); [| done] |].
  - intros _ a b _. simpl. lia.
  - intros t Ht. simpl in Ht. destruct (str_contains sep t) eqn:E; [| done].
    by apply str_contains_occurs in E.
Qed.

(** A text without the separator is a single piece. *)
Lemma split_go_single (sep : string) (s : string) :
  ∀ cur, str_contains sep s = false → split_go sep 0 cur s = [cur +:+ s].
Proof.
  induction s as [|c s IH]; intros cur H.
  - by rewrite string_app_nil_r.
  - cbn [str_contains] in H. apply orb_false_iff in H as [Hp Hc].
    cbn [split_go]. rewrite Hp, IH by done.
    by rewrite string_app_assoc.
Qed.

Lemma extract_titles_inv (q : json) (p p' : process) (titles : list string) :
  extract_titles q p = (Ok titles, p') →
  ∃ r m,
    chat_service (azure_openai_chat_deployment p) (titles_messages q) = Ok r
    ∧ first_choice r = Ok m
    ∧ titles = str_split (message_get_content m "") ", ".
Proof.
  unfold extract_titles, bind, chat_completions_create, lift.
  destruct (chat_service _ _) as [r|e]; [| done].
  destruct (first_choice r) as [m|e] eqn:Hm; [| done].
  intros [= <- _]. by exists r, m.
Qed.

(** X10. The titles are the content of the model's reply cut at each
    [", "] and nothing more: joined again with [", "] they give the
    content back, so no title is trimmed, dropped, reordered or merged. *)
Theorem titles_join_content (q : json) (p p' : process) (titles : list string) :
  extract_titles q p = (Ok titles, p') →
  ∃ r m,
    chat_service (azure_openai_chat_deployment p) (titles_messages q) = Ok r
    ∧ first_choice r = Ok m
    ∧ str_join ", " titles = message_get_content m "".
Proof.
  intros H. destruct (extract_titles_inv _ _ _ _ H) as (r & m & Hc & Hm & ->).
  exists r, m. repeat split; try done. by apply str_join_split.
Qed.

(** X11. No extracted title contains the separator [", "]. *)
Theorem titles_without_separator (q : json) (p p' : process)
    (titles : list string) :
  extract_titles q p = (Ok titles, p') →
  Forall (λ t, str_contains ", " t = false) titles.
Proof.
  intros H. destruct (extract_titles_inv _ _ _ _ H) as (r & m & _ & _ & ->).
  by apply str_split_pieces.
Qed.

(** X12. A reply that does not contain [", "] is taken whole as one
    title, whatever else it contains (a bracketed list, commas without a
    space, line feeds). *)
Theorem reply_without_separator_one_title (q : json) (r : chat_completion)
    (m : message) (p : process) :
  chat_service (azure_openai_chat_deployment p) (titles_messages q) = Ok r →
  first_choice r = Ok m →
  str_contains ", " (message_get_content m "") = false →
  extract_titles q p
  = (Ok [message_get_content m ""],
     record (ChatCall (azure_openai_chat_deployment p) (titles_messages q)) p).
Proof.
  intros Hc Hm Hn.
  rewrite (extract_titles_run q (str_split (message_get_content m "") ", ") p)
    by (by exists r, m).
  unfold str_split. by rewrite split_go_single.
Qed.

(** Serving requests keeps the language-model calls of the journal on the
    deployment of the process. *)
Lemma serve_chat_calls (reqs : list HttpRequest) (p : process) :
  (∀ model messages, ChatCall model messages ∈ journal p →
                     model = azure_openai_chat_deployment p) →
  ∀ model messages, ChatCall model messages ∈ journal (serve reqs p) →
                    model = azure_openai_chat_deployment p.
Proof.
  revert p. induction reqs as [|req reqs IH]; intros p Hp model messages H;
    [by eapply Hp |].
  destruct (stateless_handler req p) as [Hd _].
  rewrite <- Hd. apply (IH (handle_query_handler req p).2) with messages; [| done].
  intros model' messages' H'. rewrite Hd.
  destruct (chat_calls_model req p model' messages' H') as [Hin | ->]; [| done].
  by eapply Hp.
Qed.

End Handler.

(** ** Runs on the sample collaborators *)

Lemma valid_query_request (q : string) :
  q ≠ "" → valid_query (query_request q) (JStr q).
Proof.
  intros Hq. exists {[ "query" := JStr q ]}.
  split; [done |]. split; [by rewrite lookup_singleton_eq |].
  by destruct q.
Qed.

(** The scenario of the specification: one title, one record, one
    answer. *)
Example sales_scenario :
  (handle_query_handler
     (scripted_chat (says "myreport.pdf") (says sales_answer))
     (scripted_search (Ok (stream_of_list [sales_record])))
     dumps_plain str_scalar (query_request sales_query) fresh_process).1
  = Ok {| body :=
            "{" +:+ dq +:+ "openai_answer" +:+ dq +:+ ": " +:+ dq
            +:+ "Sales are up 10% per myreport.pdf." +:+ dq +:+ ", "
            +:+ dq +:+ "retrieved_content" +:+ dq +:+ ": " +:+ dq
            +:+ "Title: myreport.pdf\nContent: Q3 sales up 10%" +:+ dq +:+ "}";
          status_code := 200;
          mimetype := "application/json" |}.
Proof. vm_compute. reflexivity. Qed.

(** Duplicates and quote characters go into the filter as they are. *)
Example filter_query_verbatim :
  filter_query ["it's.txt"; "a.pdf"; "it's.txt"]
  = "title eq 'it's.txt' or title eq 'a.pdf' or title eq 'it's.txt'".
Proof. reflexivity. Qed.

Example str_split_examples :
  str_split "a.pdf, b.pdf" ", " = ["a.pdf"; "b.pdf"]
  ∧ str_split "a.pdf,b.pdf" ", " = ["a.pdf,b.pdf"]
  ∧ str_split "a, , b, " ", " = ["a"; ""; "b"; ""]
  ∧ str_split "" ", " = [""].
Proof. repeat split; reflexivity. Qed.

(** C1, on the code: when the title-extraction response has no content
    field, [extract_titles] returns the list of one empty title, not the
    empty list, and the handler goes on to search with the filter
    [title eq '']. *)
Theorem absent_content_one_empty_title :
  let chat := scripted_chat says_nothing (says sales_answer) in
  let search := scripted_search (Ok StreamEnd) in
  (extract_titles chat str_scalar (JStr sales_query) fresh_process).1 = Ok [""]
  ∧ journal (handle_query_handler chat search dumps_plain str_scalar
               (query_request sales_query) fresh_process).2
    = [LogInfo "QueryHandler function processed a request.";
       ChatCall "gpt-4o" (titles_messages str_scalar (JStr sales_query));
       SearchCall "title eq ''" ["title"; "content"];
       ChatCall "gpt-4o"
         (answer_messages str_scalar (JStr sales_query)
            "No relevant content found.")].
Proof. split; vm_compute; reflexivity. Qed.

Lemma empty_titles_skip_retrieval_witness :
  handle_query_with
    (scripted_chat (says "myreport.pdf") (says sales_answer))
    (scripted_search (Ok (stream_of_list [sales_record])))
    dumps_plain str_scalar no_titles (query_request sales_query) fresh_process
  = (Ok {| body := dumps_plain {| openai_answer := sales_answer;
                                  retrieved_content := "" |};
           status_code := 200;
           mimetype := "application/json" |},
     extend fresh_process
       [LogInfo "QueryHandler function processed a request.";
        ChatCall "gpt-4o" (answer_messages str_scalar (JStr sales_query) "")]).
Proof.
  apply (proj2 (empty_titles_skip_retrieval
                  (scripted_chat (says "myreport.pdf") (says sales_answer))
                  (scripted_search (Ok (stream_of_list [sales_record])))
                  dumps_plain str_scalar)
           no_titles (query_request sales_query) (JStr sales_query)
           (Message (Some sales_answer)) fresh_process
           (record (LogInfo "QueryHandler function processed a request.")
              fresh_process)).
  - by apply valid_query_request.
  - reflexivity.
  - eexists. split; reflexivity.
Defined.

Lemma retrieved_content_blocks_witness :
  let chat := scripted_chat (says "myreport.pdf") (says sales_answer) in
  let search := scripted_search (Ok (stream_of_list [sales_record])) in
  (handle_query_with chat search dumps_plain str_scalar
     (extract_titles chat str_scalar) (query_request sales_query)
     fresh_process).1
  = Ok {| body := dumps_plain
                    {| openai_answer := sales_answer;
                       retrieved_content :=
                         "Title: myreport.pdf" +:+ nl +:+ "Content: Q3 sales up 10%" |};
          status_code := 200;
          mimetype := "application/json" |}.
Proof.
  intros chat search.
  rewrite (retrieved_content_blocks chat search dumps_plain str_scalar
             (extract_titles chat str_scalar) (query_request sales_query)
             (JStr sales_query) ["myreport.pdf"] [sales_record]
             (Message (Some sales_answer)) fresh_process
             (record (ChatCall "gpt-4o"
                        (titles_messages str_scalar (JStr sales_query)))
                (record (LogInfo "QueryHandler function processed a request.")
                   fresh_process))).
  - reflexivity.
  - by apply valid_query_request.
  - reflexivity.
  - done.
  - reflexivity.
  - done.
  - eexists. split; reflexivity.
Defined.

Lemma no_records_sentinel_witness :
  let chat := scripted_chat (says "missing.pdf") (says "I don't know") in
  let search := scripted_search (Ok StreamEnd) in
  (handle_query_with chat search dumps_plain str_scalar
     (extract_titles chat str_scalar) (query_request "What is in missing.pdf?")
     fresh_process).1
  = Ok {| body := dumps_plain
                    {| openai_answer := "I don't know";
                       retrieved_content := "No relevant content found." |};
          status_code := 200;
          mimetype := "application/json" |}.
Proof.
  intros chat search.
  rewrite (no_records_sentinel chat search dumps_plain str_scalar
             (extract_titles chat str_scalar)
             (query_request "What is in missing.pdf?")
             (JStr "What is in missing.pdf?") ["missing.pdf"]
             (Message (Some "I don't know")) fresh_process
             (record (ChatCall "gpt-4o"
                        (titles_messages str_scalar (JStr "What is in missing.pdf?")))
                (record (LogInfo "QueryHandler function processed a request.")
                   fresh_process))).
  - reflexivity.
  - by apply valid_query_request.
  - reflexivity.
  - done.
  - reflexivity.
  - eexists. split; reflexivity.
Defined.

Lemma missing_query_rejected_witness :
  handle_query_handler
    (scripted_chat (says "myreport.pdf") (says sales_answer))
    (scripted_search (Ok StreamEnd)) dumps_plain str_scalar
    (request_of (JObj ∅)) fresh_process
  = (Ok {| body := "No query provided.";
           status_code := 400;
           mimetype := "text/plain" |},
     extend fresh_process [LogInfo "QueryHandler function processed a request."]).
Proof.
  apply (missing_query_rejected _ _ _ _ (request_of (JObj ∅)) ∅ fresh_process).
  - reflexivity.
  - left. apply lookup_empty.
Defined.

Lemma failure_gives_500_witness :
  handle_query_handler
    (scripted_chat (Raise timed_out) (says sales_answer))
    (scripted_search (Ok StreamEnd)) dumps_plain str_scalar
    (query_request sales_query) fresh_process
  = (Ok {| body := "Error: Request timed out.";
           status_code := 500;
           mimetype := "text/plain" |},
     extend fresh_process
       [LogInfo "QueryHandler function processed a request.";
        ChatCall "gpt-4o" (titles_messages str_scalar (JStr sales_query));
        LogError "Error in QueryHandler: Request timed out."]).
Proof.
  apply (proj1 (failure_gives_500
                  (scripted_chat (Raise timed_out) (says sales_answer))
                  (scripted_search (Ok StreamEnd)) dumps_plain str_scalar
                  (query_request sales_query) timed_out
                  [ChatCall "gpt-4o" (titles_messages str_scalar (JStr sales_query))]
                  fresh_process
                  (fail_titles_call _ _ _ "gpt-4o" (query_request sales_query)
                     (JStr sales_query) timed_out
                     (valid_query_request sales_query ltac:(done))
                     eq_refl))).
Defined.

Lemma search_filter_sent_witness :
  let chat := scripted_chat (says "it's.txt, a.pdf, it's.txt") (says sales_answer) in
  let search := scripted_search (Ok StreamEnd) in
  ∃ evs,
    journal (handle_query_with chat search dumps_plain str_scalar
               (extract_titles chat str_scalar) (query_request sales_query)
               fresh_process).2
    = [LogInfo "QueryHandler function processed a request.";
       ChatCall "gpt-4o" (titles_messages str_scalar (JStr sales_query))]
      ++ SearchCall
           "title eq 'it's.txt' or title eq 'a.pdf' or title eq 'it's.txt'"
           ["title"; "content"] :: evs.
Proof.
  intros chat search.
  apply (search_filter_sent chat search dumps_plain str_scalar
           (extract_titles chat str_scalar) (query_request sales_query)
           (JStr sales_query) ["it's.txt"; "a.pdf"; "it's.txt"] fresh_process
           (record (ChatCall "gpt-4o"
                      (titles_messages str_scalar (JStr sales_query)))
              (record (LogInfo "QueryHandler function processed a request.")
                 fresh_process))).
  - by apply valid_query_request.
  - reflexivity.
  - done.
Defined.

Lemma absent_answer_fallback_witness :
  let chat := scripted_chat (says "myreport.pdf") says_nothing in
  let search := scripted_search (Ok (stream_of_list [sales_record])) in
  (handle_query_handler chat search dumps_plain str_scalar
     (query_request sales_query) fresh_process).1
  = Ok {| body := dumps_plain
                    {| openai_answer := "No answer generated.";
                       retrieved_content :=
                         "Title: myreport.pdf" +:+ nl +:+ "Content: Q3 sales up 10%" |};
          status_code := 200;
          mimetype := "application/json" |}.
Proof.
  intros chat search.
  rewrite (absent_answer_fallback chat search dumps_plain str_scalar
             (query_request sales_query) (JStr sales_query) ["myreport.pdf"]
             ("Title: myreport.pdf" +:+ nl +:+ "Content: Q3 sales up 10%")
             (Message None) fresh_process).
  - reflexivity.
  - by apply valid_query_request.
  - eexists _, _. repeat split; reflexivity.
  - eexists _, _. repeat split; reflexivity.
  - eexists. split; reflexivity.
  - reflexivity.
Defined.

Lemma titles_never_empty_witness :
  let chat := scripted_chat says_nothing (says sales_answer) in
  let search := scripted_search (Ok StreamEnd) in
  ∃ evs,
    journal (handle_query_handler chat search dumps_plain str_scalar
               (query_request sales_query) fresh_process).2
    = journal fresh_process
      ++ [LogInfo "QueryHandler function processed a request.";
          ChatCall "gpt-4o" (titles_messages str_scalar (JStr sales_query));
          SearchCall (filter_query [""]) ["title"; "content"]]
      ++ evs.
Proof.
  intros chat search.
  apply (proj2 (proj2 (titles_never_empty chat search dumps_plain str_scalar))
           (query_request sales_query) (JStr sales_query) [""] fresh_process).
  - by apply valid_query_request.
  - eexists _, _. repeat split; reflexivity.
Defined.

(** ** The module-level statements *)

Lemma module_init_ok (environ : gmap string string) (out : list string)
    (cfg : Startup.settings) :
  (Startup.module_init environ out).1 = Ok cfg →
  environ !! "AZURE_SEARCH_SERVICE_ENDPOINT" = Some (Startup.search_endpoint cfg)
  ∧ environ !! "AZURE_SEARCH_ADMIN_KEY" = Some (Startup.search_admin_key cfg)
  ∧ environ !! "AZURE_SEARCH_INDEX_NAME" = Some (Startup.index_name cfg)
  ∧ environ !! "AZURE_OPENAI_ENDPOINT" = Some (Startup.azure_openai_endpoint cfg)
  ∧ environ !! "AZURE_OPENAI_KEY" = Some (Startup.azure_openai_key cfg)
  ∧ environ !! "AZURE_OPENAI_API_VERSION"
    = Some (Startup.azure_openai_api_version cfg)
  ∧ environ !! "AZURE_OPENAI_CHAT_DEPLOYMENT"
    = Some (Startup.azure_openai_chat_deployment cfg).
Proof.
  unfold Startup.module_init, Startup.and_then, Startup.os_environ,
    Startup.print, Startup.done.
  destruct (environ !! "AZURE_SEARCH_SERVICE_ENDPOINT"); [| done].
  destruct (environ !! "AZURE_SEARCH_ADMIN_KEY"); [| done].
  destruct (environ !! "AZURE_SEARCH_INDEX_NAME"); [| done].
  destruct (environ !! "AZURE_OPENAI_ENDPOINT"); [| done].
  destruct (environ !! "AZURE_OPENAI_KEY"); [| done].
  destruct (environ !! "AZURE_OPENAI_API_VERSION"); [| done].
  destruct (environ !! "AZURE_OPENAI_CHAT_DEPLOYMENT"); [| done].
  by intros [= <-].
Qed.

(** X13. The module imports without error exactly when the environment
    has all seven variables, and the settings are then the values of the
    environment, unchanged. *)
Theorem module_init_succeeds_iff (environ : gmap string string)
    (out : list string) (cfg : Startup.settings) :
  (Startup.module_init environ out).1 = Ok cfg
  ↔ environ !! "AZURE_SEARCH_SERVICE_ENDPOINT" = Some (Startup.search_endpoint cfg)
    ∧ environ !! "AZURE_SEARCH_ADMIN_KEY" = Some (Startup.search_admin_key cfg)
    ∧ environ !! "AZURE_SEARCH_INDEX_NAME" = Some (Startup.index_name cfg)
    ∧ environ !! "AZURE_OPENAI_ENDPOINT" = Some (Startup.azure_openai_endpoint cfg)
    ∧ environ !! "AZURE_OPENAI_KEY" = Some (Startup.azure_openai_key cfg)
    ∧ environ !! "AZURE_OPENAI_API_VERSION"
      = Some (Startup.azure_openai_api_version cfg)
    ∧ environ !! "AZURE_OPENAI_CHAT_DEPLOYMENT"
      = Some (Startup.azure_openai_chat_deployment cfg).
Proof.
  split; [apply module_init_ok |].
  intros (H1 & H2 & H3 & H4 & H5 & H6 & H7).
  unfold Startup.module_init, Startup.and_then, Startup.os_environ,
    Startup.print, Startup.done.
  rewrite H1, H2, H3, H4, H5, H6, H7. by destruct cfg.
Qed.

(** X14. When a variable is missing, the import stops with a [KeyError]
    that names the first missing one in the order of the reads. *)
Theorem module_init_first_missing (environ : gmap string string)
    (out : list string) (before after : list string) (key : string) :
  Startup.required = before ++ key :: after →
  Forall (λ k, is_Some (environ !! k)) before →
  environ !! key = None →
  (Startup.module_init environ out).1
  = Raise (Exn "KeyError" ("'" +:+ key +:+ "'")).
Proof.
  intros Hreq Hbefore Hkey.
  unfold Startup.required in Hreq.
  unfold Startup.module_init, Startup.and_then, Startup.os_environ,
    Startup.print, Startup.done.
  repeat (destruct before as [|? before];
          [ injection Hreq as <- _; by rewrite Hkey
          | injection Hreq as <- Hreq;
            apply Forall_cons in Hbefore as [[? ->] Hbefore] ]).
  by destruct before.
Qed.

(** X15. As soon as the two search variables are read, the import has
    written both to the standard output, the endpoint and the admin key in
    clear, each under the label [AZURE_SEARCH_ADMIN_KEY]; this holds
    whether or not the import then fails on a later variable. *)
Theorem module_init_prints_admin_key (environ : gmap string string)
    (out : list string) (endpoint key : string) :
  environ !! "AZURE_SEARCH_SERVICE_ENDPOINT" = Some endpoint →
  environ !! "AZURE_SEARCH_ADMIN_KEY" = Some key →
  (Startup.module_init environ out).2
  = out ++ [ "AZURE_SEARCH_ADMIN_KEY: " +:+ endpoint;
             "AZURE_SEARCH_ADMIN_KEY: " +:+ key ].
Proof.
  intros H1 H2.
  unfold Startup.module_init, Startup.and_then, Startup.os_environ,
    Startup.print, Startup.done.
  rewrite H1, H2.
  destruct (environ !! "AZURE_SEARCH_INDEX_NAME");
    [| by rewrite <- app_assoc].
  destruct (environ !! "AZURE_OPENAI_ENDPOINT");
    [| by rewrite <- app_assoc].
  destruct (environ !! "AZURE_OPENAI_KEY");
    [| by rewrite <- app_assoc].
  destruct (environ !! "AZURE_OPENAI_API_VERSION");
    [| by rewrite <- app_assoc].
  destruct (environ !! "AZURE_OPENAI_CHAT_DEPLOYMENT");
    by rewrite <- app_assoc.
Qed.

(** X16. Every language-model call the application makes, over any
    sequence of requests, names the deployment that the environment gave
    as [AZURE_OPENAI_CHAT_DEPLOYMENT] when the module was imported. *)
Theorem chat_calls_use_configured_deployment
    (chat_service : string → list chat_message → result chat_completion)
    (search_service : string → list string → result result_stream)
    (json_dumps : response_data → string) (py_str : json → string)
    (environ : gmap string string) (out : list string)
    (cfg : Startup.settings) (reqs : list HttpRequest)
    (model : string) (messages : list chat_message) :
  (Startup.module_init environ out).1 = Ok cfg →
  ChatCall model messages
  ∈ journal (serve chat_service search_service json_dumps py_str reqs
               (process_of cfg)) →
  environ !! "AZURE_OPENAI_CHAT_DEPLOYMENT" = Some model.
Proof.
  intros Hinit Hin.
  destruct (module_init_ok _ _ _ Hinit) as (_ & _ & _ & _ & _ & _ & Hd).
  rewrite Hd. f_equal. symmetry.
  apply (serve_chat_calls chat_service search_service json_dumps py_str
           reqs (process_of cfg)) with messages; [| done].
  intros model' messages' H. by apply elem_of_nil in H.
Qed.

(** X17. Quote characters in a title are not escaped, so one title can
    stand for several: the filter built for the single title
    [a' or title eq 'b] is the filter built for the two titles [a] and
    [b]. *)
Theorem filter_query_quote_injection (a b : string) :
  filter_query [a +:+ "' or title eq '" +:+ b] = filter_query [a; b].
Proof.
  unfold filter_query, filter_clause. cbn [fmap list_fmap str_join].
  by rewrite !string_app_assoc.
Qed.

(** ** Further runs on the sample collaborators *)


Lemma bad_request_iff_witness :
  status_code {| body := "No query provided.";
                 status_code := 400;
                 mimetype := "text/plain" |} = 400%Z
  ↔ ∃ m, get_json (request_of (JObj ∅)) = Ok (JObj m)
         ∧ truthy (default (JStr "") (m !! "query")) = false.
Proof.
  apply (bad_request_iff (scripted_chat (says "myreport.pdf") (says sales_answer))
           (scripted_search (Ok StreamEnd)) dumps_plain str_scalar
           (request_of (JObj ∅)) fresh_process).
  reflexivity.
Defined.

Lemma non_object_body_500_witness :
  handle_query_handler
    (scripted_chat (says "myreport.pdf") (says sales_answer))
    (scripted_search (Ok StreamEnd)) dumps_plain str_scalar
    (request_of (JArr [JStr sales_query])) fresh_process
  = (Ok {| body := "Error: 'list' object has no attribute 'get'";
           status_code := 500;
           mimetype := "text/plain" |},
     extend fresh_process
       [LogInfo "QueryHandler function processed a request.";
        LogError "Error in QueryHandler: 'list' object has no attribute 'get'"]).
Proof.
  apply (non_object_body_500 _ _ _ _ (request_of (JArr [JStr sales_query]))
           (JArr [JStr sales_query]) fresh_process).
  - reflexivity.
  - intros m. discriminate.
Defined.

Lemma ok_response_shape_witness :
  let chat := scripted_chat (says "myreport.pdf") (says sales_answer) in
  let search := scripted_search (Ok (stream_of_list [sales_record])) in
  ∃ q titles fr m,
    valid_query (query_request sales_query) q
    ∧ extracted chat str_scalar "gpt-4o" q titles
    ∧ retrieved search titles fr
    ∧ answered chat str_scalar "gpt-4o" q fr m
    ∧ dumps_plain {| openai_answer := sales_answer;
                     retrieved_content :=
                       "Title: myreport.pdf" +:+ nl +:+ "Content: Q3 sales up 10%" |}
      = dumps_plain {| openai_answer := message_get_content m "No answer generated.";
                       retrieved_content := fr |}
    ∧ (handle_query_handler chat search dumps_plain str_scalar
         (query_request sales_query) fresh_process).2
      = extend fresh_process
          (LogInfo "QueryHandler function processed a request."
           :: planned_calls str_scalar "gpt-4o" q titles fr).
Proof.
  intros chat search.
  apply (ok_response_shape chat search dumps_plain str_scalar
           (query_request sales_query) fresh_process
           {| body := dumps_plain
                        {| openai_answer := sales_answer;
                           retrieved_content :=
                             "Title: myreport.pdf" +:+ nl
                             +:+ "Content: Q3 sales up 10%" |};
              status_code := 200;
              mimetype := "application/json" |}).
  - reflexivity.
  - reflexivity.
Defined.

Lemma retrieved_content_never_empty_witness :
  let chat := scripted_chat says_nothing (says sales_answer) in
  let search := scripted_search (Ok StreamEnd) in
  ∃ answer fr,
    dumps_plain {| openai_answer := sales_answer;
                   retrieved_content := "No relevant content found." |}
    = dumps_plain {| openai_answer := answer; retrieved_content := fr |}
    ∧ fr ≠ "".
Proof.
  intros chat search.
  apply (retrieved_content_never_empty chat search dumps_plain str_scalar
           (query_request sales_query) fresh_process
           {| body := dumps_plain
                        {| openai_answer := sales_answer;
                           retrieved_content := "No relevant content found." |};
              status_code := 200;
              mimetype := "application/json" |}).
  - reflexivity.
  - reflexivity.
Defined.

Lemma partial_stream_discarded_witness :
  let chat := scripted_chat (says "myreport.pdf") (says sales_answer) in
  let search :=
    scripted_search (Ok (stream_failing [sales_record] connection_lost)) in
  handle_query_handler chat search dumps_plain str_scalar
    (query_request sales_query) fresh_process
  = (Ok {| body := "Error: Connection lost.";
           status_code := 500;
           mimetype := "text/plain" |},
     extend fresh_process
       [LogInfo "QueryHandler function processed a request.";
        ChatCall "gpt-4o" (titles_messages str_scalar (JStr sales_query));
        SearchCall "title eq 'myreport.pdf'" ["title"; "content"];
        LogError "Error in QueryHandler: Connection lost."]).
Proof.
  intros chat search.
  apply (partial_stream_discarded chat search dumps_plain str_scalar
           (query_request sales_query) (JStr sales_query) ["myreport.pdf"]
           [sales_record] connection_lost fresh_process).
  - by apply valid_query_request.
  - eexists _, _. repeat split; reflexivity.
  - reflexivity.
Defined.

Lemma sentinel_iff_no_records_witness :
  "Title: myreport.pdf" +:+ nl +:+ "Content: Q3 sales up 10%"
  = "No relevant content found."
  ↔ [sales_record] = [].
Proof.
  apply (sentinel_iff_no_records
           (scripted_search (Ok (stream_of_list [sales_record])))
           ["myreport.pdf"] [sales_record]
           ("Title: myreport.pdf" +:+ nl +:+ "Content: Q3 sales up 10%")
           fresh_process).
  - done.
  - reflexivity.
  - reflexivity.
Defined.

Lemma titles_join_content_witness :
  let chat := scripted_chat (says "a.pdf, , b.pdf ") (says sales_answer) in
  ∃ r m,
    chat "gpt-4o" (titles_messages str_scalar (JStr sales_query)) = Ok r
    ∧ first_choice r = Ok m
    ∧ str_join ", " ["a.pdf"; ""; "b.pdf "] = message_get_content m "".
Proof.
  intros chat.
  apply (titles_join_content chat str_scalar (JStr sales_query) fresh_process
           (record (ChatCall "gpt-4o"
                      (titles_messages str_scalar (JStr sales_query)))
              fresh_process)).
  reflexivity.
Defined.

Lemma titles_without_separator_witness :
  Forall (λ t, str_contains ", " t = false) ["a.pdf"; ""; "b.pdf "].
Proof.
  apply (titles_without_separator
           (scripted_chat (says "a.pdf, , b.pdf ") (says sales_answer))
           str_scalar (JStr sales_query) fresh_process
           (record (ChatCall "gpt-4o"
                      (titles_messages str_scalar (JStr sales_query)))
              fresh_process)).
  reflexivity.
Defined.

Lemma reply_without_separator_one_title_witness :
  (extract_titles
     (scripted_chat (says "['a.pdf','b.pdf']") (says sales_answer))
     str_scalar (JStr sales_query) fresh_process).1
  = Ok ["['a.pdf','b.pdf']"].
Proof.
  rewrite (reply_without_separator_one_title
             (scripted_chat (says "['a.pdf','b.pdf']") (says sales_answer))
             str_scalar (JStr sales_query)
             (ChatCompletion [Message (Some "['a.pdf','b.pdf']")])
             (Message (Some "['a.pdf','b.pdf']")) fresh_process).
  - reflexivity.
  - reflexivity.
  - reflexivity.
  - reflexivity.
Defined.

Lemma module_init_succeeds_iff_witness :
  (Startup.module_init sample_environ []).1 = Ok sample_settings.
Proof.
  apply (proj2 (module_init_succeeds_iff sample_environ [] sample_settings)).
  repeat split; vm_compute; reflexivity.
Defined.

Lemma module_init_first_missing_witness :
  (Startup.module_init environ_without_index []).1
  = Raise (Exn "KeyError" "'AZURE_SEARCH_INDEX_NAME'").
Proof.
  apply (module_init_first_missing environ_without_index []
           ["AZURE_SEARCH_SERVICE_ENDPOINT"; "AZURE_SEARCH_ADMIN_KEY"]
           ["AZURE_OPENAI_ENDPOINT"; "AZURE_OPENAI_KEY";
            "AZURE_OPENAI_API_VERSION"; "AZURE_OPENAI_CHAT_DEPLOYMENT"]
           "AZURE_SEARCH_INDEX_NAME").
  - reflexivity.
  - repeat (apply Forall_cons; split; [eexists; vm_compute; reflexivity |]).
    apply Forall_nil_2.
  - vm_compute. reflexivity.
Defined.

Lemma module_init_prints_admin_key_witness :
  (Startup.module_init environ_without_index []).2
  = [ "AZURE_SEARCH_ADMIN_KEY: https://example.search.windows.net";
      "AZURE_SEARCH_ADMIN_KEY: s3cr3t" ].
Proof.
  apply (module_init_prints_admin_key environ_without_index []
           "https://example.search.windows.net" "s3cr3t").
  - vm_compute. reflexivity.
  - vm_compute. reflexivity.
Defined.

Lemma chat_calls_use_configured_deployment_witness :
  sample_environ !! "AZURE_OPENAI_CHAT_DEPLOYMENT" = Some "gpt-4o".
Proof.
  apply (chat_calls_use_configured_deployment
           (scripted_chat (says "myreport.pdf") (says sales_answer))
           (scripted_search (Ok (stream_of_list [sales_record])))
           dumps_plain str_scalar sample_environ [] sample_settings
           [query_request sales_query; query_request sales_query]
           "gpt-4o" (titles_messages str_scalar (JStr sales_query))).
  - vm_compute. reflexivity.
  - apply list_elem_of_In. vm_compute. right; left; reflexivity.
Defined.
